(** * Announcements router of the High School Management System API

    A shallow embedding of [src/backend/routers/announcements.py]: the four
    endpoint functions [get_announcements], [create_announcement],
    [update_announcement] and [delete_announcement], run over an explicit
    model of the two document collections they talk to.

    Documents are Python dicts, embedded as finite maps from field names to
    values; a collection is the list of its documents in insertion order; an
    endpoint is a computation in a small state-and-exception monad over the
    pair of collections. *)

From Stdlib Require Import String Ascii NArith.
From stdpp Require Import gmap strings list sorting.

Local Open Scope string_scope.
Local Open Scope list_scope.

(** ** Values and documents *)

(** The field values that occur in announcement and teacher documents:
    Python [str], Python [bool], and the driver's [ObjectId] (a 12-byte
    number, kept as an [N]). *)
Inductive value : Type :=
  | VStr (s : string)
  | VBool (b : bool)
  | VOid (n : N).

#[global] Instance value_eq_dec : EqDecision value.
Proof. solve_decision. Defined.

Abbreviation document := (gmap string value).
Abbreviation collection := (list document).

(** [str(ObjectId)] is the identifier written as 24 lower-case hexadecimal
    digits. *)
Definition hex_digit (n : N) : ascii :=
  match String.get (N.to_nat n) "0123456789abcdef" with
  | Some c => c
  | None => "0"%char
  end.

Fixpoint hex_fixed (digits : nat) (n : N) : string :=
  match digits with
  | O => ""
  | S k => hex_fixed k (n / 16) +:+ String (hex_digit (n mod 16)) ""
  end.

(** Python's [str] on the three kinds of value. *)
Definition str (v : value) : string :=
  match v with
  | VStr s => s
  | VBool true => "True"
  | VBool false => "False"
  | VOid n => hex_fixed 24 n
  end.

(** ** The document store *)

Module Mongo.

(** Modelled from the spec: the [database] module that creates
    [announcements_collection] and [teachers_collection] is not part of the
    sources; section 6 describes both as opaque document stores supporting
    "filtered find with sort, insert, field-level update by id, delete by
    id" and "lookup-by-username".  The operations of this module give those
    calls the meaning they have for a document collection.  A query
    document matches a stored document that agrees with it on every field
    the query mentions; the empty query matches everything. *)
Definition matches (query d : document) : Prop :=
  map_Forall (λ k v, d !! k = Some v) query.

#[global] Instance matches_dec query d : Decision (matches query d).
Proof. unfold matches. apply _. Defined.

(** Modelled from the spec: [find(query)], the matching documents in
    store order. *)
Definition find (query : document) (c : collection) : collection :=
  filter (matches query) c.

(** Modelled from the spec: [find_one(query)], the first match if any. *)
Definition find_one (query : document) (c : collection) : option document :=
  snd <$> list_find (matches query) c.

(** Modelled from the spec: the order that "ordered by [created_at]" refers
    to.  An absent field sorts as null, below every string, strings below
    identifiers, identifiers below booleans; strings compare character by
    character, which on ISO-8601 timestamps is the order of time. *)
Definition type_rank (v : option value) : nat :=
  match v with
  | None => 0
  | Some (VStr _) => 1
  | Some (VOid _) => 2
  | Some (VBool _) => 3
  end.

Definition value_leb (a b : option value) : bool :=
  match a, b with
  | Some (VStr s), Some (VStr t) => String.leb s t
  | Some (VOid m), Some (VOid n) => N.leb m n
  | Some (VBool x), Some (VBool y) => implb x y
  | _, _ => Nat.leb (type_rank a) (type_rank b)
  end.

Definition value_le (a b : option value) : Prop := value_leb a b = true.

(** [d1] may precede [d2] in a listing sorted on [key] descending. *)
Definition desc_on (key : string) (d1 d2 : document) : Prop :=
  value_le (d2 !! key) (d1 !! key).

#[global] Instance desc_on_dec key : RelDecision (desc_on key).
Proof. intros d1 d2. unfold desc_on, value_le. apply _. Defined.

(** Modelled from the spec: [cursor.sort(key, -1)]. *)
Definition sort_desc (key : string) (c : collection) : collection :=
  merge_sort (desc_on key) c.

Inductive write_error : Type := DuplicateKey.

(** Modelled from the spec: [insert_one(doc)].  A document without [_id]
    receives the identifier the driver generated ([new_oid]); the store
    refuses a second document with an [_id] already present.  The result
    is the inserted id, the document as mutated by the call, and the new
    collection. *)
Definition insert_one (new_oid : N) (doc : document) (c : collection)
  : write_error + (value * document * collection) :=
  let inserted_id := default (VOid new_oid) (doc !! "_id") in
  let doc' := <["_id" := inserted_id]> doc in
  if decide (Exists (λ d, d !! "_id" = Some inserted_id) c)
  then inl DuplicateKey
  else inr (inserted_id, doc', c ++ [doc']).

(** Modelled from the spec: [update_one(query, {"$set": fields})].  The
    first matching document has the given fields overwritten; the result
    is the matched count and the new collection. *)
Definition update_one (query fields : document) (c : collection)
  : nat * collection :=
  match list_find (matches query) c with
  | Some (i, d) => (1, <[i := fields ∪ d]> c)
  | None => (0, c)
  end.

(** Modelled from the spec: [delete_one(query)].  The first matching
    document is removed; the result is the deleted count and the new
    collection. *)
Definition delete_one (query : document) (c : collection)
  : nat * collection :=
  match list_find (matches query) c with
  | Some (i, _) => (1, delete i c)
  | None => (0, c)
  end.

End Mongo.

(** ** State and exceptions *)

Record database : Type := Database {
  announcements_collection : collection;
  teachers_collection : collection
}.

Inductive exn : Type :=
  | HTTPException (status_code : nat) (detail : string)
  | KeyError (key : string)
  | DuplicateKeyError
  | AttributeError.

Inductive outcome (A : Type) : Type :=
  | Return (a : A)
  | Raise (e : exn).
Arguments Return {A} a.
Arguments Raise {A} e.

(** An endpoint body: it reads and writes the collections and either
    returns or raises.  A raise keeps whatever was written before it. *)
Definition handler (A : Type) : Type := database → outcome A * database.

Definition ret {A} (a : A) : handler A := λ db, (Return a, db).
Definition raise {A} (e : exn) : handler A := λ db, (Raise e, db).
Definition bind {A B} (m : handler A) (k : A → handler B) : handler B :=
  λ db, match m db with
        | (Return a, db') => k a db'
        | (Raise e, db') => (Raise e, db')
        end.

Notation "'let!' x ':=' m 'in' k" := (bind m (λ x, k))
  (at level 10, x pattern, m at level 100, k at level 200,
   format "'[v' 'let!'  x  ':='  m  'in' '/' k ']'").

Definition teachers_find_one (query : document) : handler (option document) :=
  λ db, (Return (Mongo.find_one query (teachers_collection db)), db).

Definition announcements_find (query : document) : handler collection :=
  λ db, (Return (Mongo.find query (announcements_collection db)), db).

Definition announcements_find_one (query : document)
  : handler (option document) :=
  λ db, (Return (Mongo.find_one query (announcements_collection db)), db).

Definition announcements_insert_one (new_oid : N) (doc : document)
  : handler (value * document) :=
  λ db, match Mongo.insert_one new_oid doc (announcements_collection db) with
        | inl Mongo.DuplicateKey => (Raise DuplicateKeyError, db)
        | inr (inserted_id, doc', c') =>
            (Return (inserted_id, doc'),
             Database c' (teachers_collection db))
        end.

Definition announcements_update_one (query fields : document) : handler nat :=
  λ db, let '(matched_count, c') :=
          Mongo.update_one query fields (announcements_collection db) in
        (Return matched_count, Database c' (teachers_collection db)).

Definition announcements_delete_one (query : document) : handler nat :=
  λ db, let '(deleted_count, c') :=
          Mongo.delete_one query (announcements_collection db) in
        (Return deleted_count, Database c' (teachers_collection db)).

(** ** The endpoints *)

(** What a request reads from outside the store: the clock, as
    [datetime.utcnow().isoformat()] renders it, and the identifier the
    driver generates for the next inserted document. *)
Record environment : Type := Environment {
  utcnow_isoformat : string;
  new_object_id : N
}.

(** [dict.pop("_id", None)] *)
Definition pop_id (d : document) : document := delete "_id" d.

(** [get_announcements(active_only)] *)
Definition get_announcements (active_only : option bool)
  : handler (list document) :=
  let query : document :=
    if default false active_only
    then {[ "is_active" := VBool true ]}
    else ∅ in
  let! found := announcements_find query in
  ret (pop_id <$> Mongo.sort_desc "created_at" found).

(** [create_announcement(title, message, teacher_username, is_active)] *)
Definition create_announcement (env : environment)
    (title message : string) (teacher_username : option string)
    (is_active : bool) : handler document :=
  match teacher_username with
  | None =>
      raise (HTTPException 401 "Authentication required to post announcements")
  | Some username =>
      if decide (username = "") then
        raise (HTTPException 401 "Authentication required to post announcements")
      else
        let! teacher := teachers_find_one {[ "_id" := VStr username ]} in
        match teacher with
        | None => raise (HTTPException 401 "Invalid teacher credentials")
        | Some teacher =>
            if decide (teacher = ∅) then
              raise (HTTPException 401 "Invalid teacher credentials")
            else
              match teacher !! "display_name" with
              | None => raise (KeyError "display_name")
              | Some display_name =>
                  let announcement : document :=
                    {[ "title" := VStr title;
                       "message" := VStr message;
                       "created_by" := display_name;
                       "created_at" := VStr (utcnow_isoformat env);
                       "is_active" := VBool is_active ]} in
                  let! (inserted_id, announcement) :=
                    announcements_insert_one (new_object_id env) announcement in
                  ret (<["_id" := VStr (str inserted_id)]> announcement)
              end
        end
  end.

(** The update document built from the supplied optional fields. *)
Definition build_update_doc (is_active : option bool)
    (title message : option string) : document :=
  let update_doc : document := ∅ in
  let update_doc :=
    match is_active with
    | Some b => <["is_active" := VBool b]> update_doc
    | None => update_doc
    end in
  let update_doc :=
    match title with
    | Some t => <["title" := VStr t]> update_doc
    | None => update_doc
    end in
  match message with
  | Some m => <["message" := VStr m]> update_doc
  | None => update_doc
  end.

(** [update_announcement(announcement_id, teacher_username, is_active,
    title, message)] *)
Definition update_announcement (announcement_id : string)
    (teacher_username : option string) (is_active : option bool)
    (title message : option string) : handler document :=
  match teacher_username with
  | None => raise (HTTPException 401 "Authentication required")
  | Some username =>
      if decide (username = "") then
        raise (HTTPException 401 "Authentication required")
      else
        let! teacher := teachers_find_one {[ "_id" := VStr username ]} in
        match teacher with
        | None => raise (HTTPException 401 "Invalid teacher credentials")
        | Some teacher =>
            if decide (teacher = ∅) then
              raise (HTTPException 401 "Invalid teacher credentials")
            else
              let update_doc := build_update_doc is_active title message in
              if decide (update_doc = ∅) then
                raise (HTTPException 400 "No fields to update")
              else
                let! matched_count :=
                  announcements_update_one
                    {[ "_id" := VStr announcement_id ]} update_doc in
                if decide (matched_count = 0) then
                  raise (HTTPException 404 "Announcement not found")
                else
                  let! updated :=
                    announcements_find_one
                      {[ "_id" := VStr announcement_id ]} in
                  match updated with
                  | None => raise AttributeError
                  | Some updated => ret (pop_id updated)
                  end
        end
  end.

(** [delete_announcement(announcement_id, teacher_username)] *)
Definition delete_announcement (announcement_id : string)
    (teacher_username : option string) : handler document :=
  match teacher_username with
  | None => raise (HTTPException 401 "Authentication required")
  | Some username =>
      if decide (username = "") then
        raise (HTTPException 401 "Authentication required")
      else
        let! teacher := teachers_find_one {[ "_id" := VStr username ]} in
        match teacher with
        | None => raise (HTTPException 401 "Invalid teacher credentials")
        | Some teacher =>
            if decide (teacher = ∅) then
              raise (HTTPException 401 "Invalid teacher credentials")
            else
              let! deleted_count :=
                announcements_delete_one
                  {[ "_id" := VStr announcement_id ]} in
              if decide (deleted_count = 0) then
                raise (HTTPException 404 "Announcement not found")
              else
                ret {[ "message" := VStr "Announcement deleted successfully" ]}
        end
  end.

(** A request as the router dispatches it, and the response body. *)
Inductive request : Type :=
  | GET (active_only : option bool)
  | POST (title message : string) (teacher_username : option string)
         (is_active : bool)
  | PATCH (announcement_id : string) (teacher_username : option string)
          (is_active : option bool) (title message : option string)
  | DELETE (announcement_id : string) (teacher_username : option string).

Inductive body : Type :=
  | JsonArray (l : list document)
  | JsonObject (d : document).

Definition router (env : environment) (r : request) : handler body :=
  match r with
  | GET active_only =>
      let! l := get_announcements active_only in ret (JsonArray l)
  | POST title message teacher_username is_active =>
      let! d := create_announcement env title message teacher_username
                  is_active in
      ret (JsonObject d)
  | PATCH announcement_id teacher_username is_active title message =>
      let! d := update_announcement announcement_id teacher_username
                  is_active title message in
      ret (JsonObject d)
  | DELETE announcement_id teacher_username =>
      let! d := delete_announcement announcement_id teacher_username in
      ret (JsonObject d)
  end.

(** ** Vocabulary of the specification *)

(** The caller presents no usable credential: no username, an empty one, or
    one that no teacher record carries. *)
Definition unauthorized (teacher_username : option string) (db : database)
  : Prop :=
  match teacher_username with
  | None => True
  | Some u =>
      u = "" ∨ ∀ t, t ∈ teachers_collection db → t !! "_id" ≠ Some (VStr u)
  end.

(** The caller names an existing teacher. *)
Definition valid_teacher (teacher_username : option string) (db : database)
  : Prop :=
  ∃ u t, teacher_username = Some u ∧ u ≠ "" ∧
         t ∈ teachers_collection db ∧ t !! "_id" = Some (VStr u).

(** An announcement with the given id exists / does not exist. *)
Definition has_id (announcement_id : string) (d : document) : Prop :=
  d !! "_id" = Some (VStr announcement_id).

Definition unknown_id (announcement_id : string) (db : database) : Prop :=
  ∀ d, d ∈ announcements_collection db → ¬ has_id announcement_id d.

(** [d] is the first document of [c], at position [i], that satisfies [P]. *)
Definition first_at {A} (P : A → Prop) (c : list A) (i : nat) (d : A) : Prop :=
  c !! i = Some d ∧ P d ∧ ∀ j y, c !! j = Some y → j < i → ¬ P y.

(** No two stored documents share an [_id]. *)
Definition unique_ids (c : collection) : Prop :=
  NoDup ((λ d : document, d !! "_id") <$> c).

Definition is_active_true (d : document) : Prop :=
  d !! "is_active" = Some (VBool true).

#[global] Instance is_active_true_dec d : Decision (is_active_true d).
Proof. unfold is_active_true. apply _. Defined.

(** A listing is newest first when every element's [created_at] is at least
    that of every later element. *)
Definition newest_first (l : list document) : Prop :=
  StronglySorted (Mongo.desc_on "created_at") l.

(** Some field of the payload [r] holds the identifier [id], as stored or
    in its string form. *)
Definition carries_identifier (id : value) (r : document) : Prop :=
  ∃ k, r !! k = Some id ∨ r !! k = Some (VStr (str id)).

Definition title_nonempty (d : document) : Prop :=
  ∃ t, d !! "title" = Some (VStr t) ∧ t ≠ "".

Definition titles_nonempty (c : collection) : Prop := Forall title_nonempty c.

(** The title a request asks to store, if any. *)
Definition supplied_title (r : request) : option string :=
  match r with
  | POST title _ _ _ => Some title
  | PATCH _ _ _ title _ => title
  | _ => None
  end.

(** A listing of [db] retains identifiers: every listed record agrees with
    some stored announcement on all payload fields and carries that
    announcement's identifier. *)
Definition retains_identifier (active_only : option bool) (db : database)
  : Prop :=
  ∀ out db',
    get_announcements active_only db = (Return out, db') →
    ∀ r, r ∈ out →
         ∃ d v, d ∈ announcements_collection db ∧
                d !! "_id" = Some v ∧
                (∀ k, k ≠ "_id" → r !! k = d !! k) ∧
                carries_identifier v r.

(** [r] is the payload of the stored document [d]: it has no [_id] and
    agrees with [d] on every other field. *)
Definition payload_of (r d : document) : Prop :=
  r !! "_id" = None ∧ ∀ k, k ≠ "_id" → r !! k = d !! k.

(** The record a successful create persists. *)
Definition persisted_announcement (env : environment)
    (title message : string) (created_by : value) (is_active : bool)
  : document :=
  {[ "_id" := VOid (new_object_id env);
     "title" := VStr title;
     "message" := VStr message;
     "created_by" := created_by;
     "created_at" := VStr (utcnow_isoformat env);
     "is_active" := VBool is_active ]}.

(** The identifier generated for the next insert is not in use. *)
Definition fresh_id (env : environment) (db : database) : Prop :=
  ∀ d, d ∈ announcements_collection db →
       d !! "_id" ≠ Some (VOid (new_object_id env)).

(** The confirmation a successful delete returns. *)
Definition deleted_confirmation : document :=
  {[ "message" := VStr "Announcement deleted successfully" ]}.

(** ** A small school, for concrete runs *)

Definition ms_jones : document :=
  {[ "_id" := VStr "t_jones"; "display_name" := VStr "Ms. Jones" ]}.

Definition exam_notice : document :=
  {[ "_id" := VStr "a1";
     "title" := VStr "Exam";
     "message" := VStr "Math exam Friday";
     "created_by" := VStr "Ms. Jones";
     "created_at" := VStr "2024-01-05T10:00:00";
     "is_active" := VBool true ]}.

Definition old_notice : document :=
  {[ "_id" := VOid 4096;
     "title" := VStr "Welcome back";
     "message" := VStr "Term starts Monday";
     "created_by" := VStr "Ms. Jones";
     "created_at" := VStr "2023-09-01T08:00:00.250000";
     "is_active" := VBool false ]}.

Definition school : database :=
  Database [old_notice; exam_notice] [ms_jones].

Definition monday : environment :=
  Environment "2024-01-08T09:30:00" 255.

(** The record Ms. Jones creates on [monday]. *)
Definition sports_day : document :=
  {[ "_id" := VOid 255;
     "title" := VStr "Sports day";
     "message" := VStr "Bring trainers";
     "created_by" := VStr "Ms. Jones";
     "created_at" := VStr "2024-01-08T09:30:00";
     "is_active" := VBool true ]}.

(** [exam_notice] after it is switched off. *)
Definition exam_notice_off : document :=
  {[ "_id" := VStr "a1";
     "title" := VStr "Exam";
     "message" := VStr "Math exam Friday";
     "created_by" := VStr "Ms. Jones";
     "created_at" := VStr "2024-01-05T10:00:00";
     "is_active" := VBool false ]}.

(** ** Vocabulary for whole requests *)

(** [written env r db db'] is the change of store a request that returns
    makes: none for a listing, one record appended by a create, the targeted
    record overwritten by an update, the targeted record removed by a
    delete. *)
Inductive written (env : environment)
  : request → database → database → Prop :=
  | written_GET active_only db :
      written env (GET active_only) db db
  | written_POST title message u is_active db it teacher display_name :
      u ≠ "" →
      first_at (λ t, t !! "_id" = Some (VStr u)) (teachers_collection db)
               it teacher →
      teacher !! "display_name" = Some display_name →
      fresh_id env db →
      written env (POST title message (Some u) is_active) db
        (Database
           (announcements_collection db
              ++ [persisted_announcement env title message display_name
                    is_active])
           (teachers_collection db))
  | written_PATCH id tu is_active title message db i d :
      valid_teacher tu db →
      build_update_doc is_active title message ≠ ∅ →
      first_at (has_id id) (announcements_collection db) i d →
      written env (PATCH id tu is_active title message) db
        (Database
           (<[i := build_update_doc is_active title message ∪ d]>
              (announcements_collection db))
           (teachers_collection db))
  | written_DELETE id tu db i d :
      valid_teacher tu db →
      first_at (has_id id) (announcements_collection db) i d →
      written env (DELETE id tu) db
        (Database (delete i (announcements_collection db))
                  (teachers_collection db)).

(** The shape of the announcements the endpoints write: an identifier, a
    string title, message and timestamp, an author, a boolean flag. *)
Definition well_formed_announcement (d : document) : Prop :=
  is_Some (d !! "_id") ∧
  (∃ t, d !! "title" = Some (VStr t)) ∧
  (∃ m, d !! "message" = Some (VStr m)) ∧
  is_Some (d !! "created_by") ∧
  (∃ s, d !! "created_at" = Some (VStr s)) ∧
  (∃ b, d !! "is_active" = Some (VBool b)).

(** [d'] is [d] as far as identity and authorship go. *)
Definition same_origin (d d' : document) : Prop :=
  d' !! "_id" = d !! "_id" ∧
  d' !! "created_by" = d !! "created_by" ∧
  d' !! "created_at" = d !! "created_at".

(** The caller gave no username at all (absent or empty). *)
Definition no_username (teacher_username : option string) : Prop :=
  teacher_username = None ∨ teacher_username = Some "".

(** The caller gave a username that no teacher record carries. *)
Definition unknown_username (teacher_username : option string)
    (db : database) : Prop :=
  ∃ u, teacher_username = Some u ∧ u ≠ "" ∧
       ∀ t, t ∈ teachers_collection db → t !! "_id" ≠ Some (VStr u).

(** Every stored [created_at] sorts strictly before the clock reading. *)
Definition clock_ahead (env : environment) (db : database) : Prop :=
  ∀ d, d ∈ announcements_collection db →
       ¬ Mongo.value_le (Some (VStr (utcnow_isoformat env)))
                        (d !! "created_at").

(** The credential a request presents; a listing presents none. *)
Definition request_teacher (r : request) : option string :=
  match r with
  | GET _ => None
  | POST _ _ teacher_username _ => teacher_username
  | PATCH _ teacher_username _ _ _ => teacher_username
  | DELETE _ teacher_username => teacher_username
  end.

(** The store after a sequence of requests, each served with its own clock
    reading and generated identifier. *)
Fixpoint serve (reqs : list (environment * request)) (db : database)
  : database :=
  match reqs with
  | [] => db
  | (env, r) :: reqs => serve reqs (router env r db).2
  end.

(** The stored identifier is an [ObjectId]. *)
Definition has_object_id (d : document) : Prop :=
  ∃ n, d !! "_id" = Some (VOid n).

(** A school whose only teacher record lacks a display name. *)
Definition nameless_school : database :=
  Database [] [ {[ "_id" := VStr "t_smith" ]} ].

(** The payloads of [exam_notice_off] and [sports_day], field by field. *)
Definition exam_notice_off_payload : document :=
  {[ "title" := VStr "Exam";
     "message" := VStr "Math exam Friday";
     "created_by" := VStr "Ms. Jones";
     "created_at" := VStr "2024-01-05T10:00:00";
     "is_active" := VBool false ]}.

Definition sports_day_payload : document :=
  {[ "title" := VStr "Sports day";
     "message" := VStr "Bring trainers";
     "created_by" := VStr "Ms. Jones";
     "created_at" := VStr "2024-01-08T09:30:00";
     "is_active" := VBool true ]}.

(** * Properties *)

(** ** The sort order *)

Section order.

Lemma ascii_compare_N (a b : ascii) :
  Ascii.compare a b = N.compare (N_of_ascii a) (N_of_ascii b).
Proof. reflexivity. Qed.

Lemma ascii_compare_Lt_trans (a b c : ascii) :
  Ascii.compare a b = Lt → Ascii.compare b c = Lt → Ascii.compare a c = Lt.
Proof.
  rewrite !ascii_compare_N, !N.compare_lt_iff. apply N.lt_trans.
Qed.

Lemma string_compare_Lt_trans (s t u : string) :
  String.compare s t = Lt → String.compare t u = Lt → String.compare s u = Lt.
Proof.
  revert t u. induction s as [|a s IH]; intros [|b t] [|c u]; simpl; try done.
  destruct (Ascii.compare a b) eqn:Hab; try done;
    destruct (Ascii.compare b c) eqn:Hbc; try done.
  - apply Ascii.compare_eq_iff in Hab as ->. rewrite Hbc. apply IH.
  - apply Ascii.compare_eq_iff in Hab as ->. by rewrite Hbc.
  - apply Ascii.compare_eq_iff in Hbc as <-. by rewrite Hab.
  - by rewrite (ascii_compare_Lt_trans a b c).
Qed.

Lemma string_leb_trans (s t u : string) :
  String.leb s t = true → String.leb t u = true → String.leb s u = true.
Proof.
  unfold String.leb.
  destruct (String.compare s t) eqn:Hst; try done;
    destruct (String.compare t u) eqn:Htu; try done; intros _ _.
  - apply String.compare_eq_iff in Hst as ->. by rewrite Htu.
  - apply String.compare_eq_iff in Hst as ->. by rewrite Htu.
  - apply String.compare_eq_iff in Htu as <-. by rewrite Hst.
  - by rewrite (string_compare_Lt_trans s t u).
Qed.

#[global] Instance value_le_total : Total Mongo.value_le.
Proof.
  intros [[s|[]|m]|] [[t|[]|n]|]; unfold Mongo.value_le; simpl; auto.
  - apply String.leb_total.
  - rewrite !N.leb_le. lia.
Qed.

#[global] Instance value_le_trans : Transitive Mongo.value_le.
Proof.
  intros [[s|[]|m]|] [[t|[]|n]|] [[u|[]|p]|];
    unfold Mongo.value_le; simpl; try done.
  - apply string_leb_trans.
  - rewrite !N.leb_le. lia.
Qed.

#[global] Instance desc_on_total key : Total (Mongo.desc_on key).
Proof.
  intros d1 d2. unfold Mongo.desc_on.
  destruct (total Mongo.value_le (d1 !! key) (d2 !! key)); auto.
Qed.

#[global] Instance desc_on_trans key : Transitive (Mongo.desc_on key).
Proof.
  intros d1 d2 d3 H12 H23. unfold Mongo.desc_on in *. by etrans.
Qed.

Lemma sort_desc_sorted key c :
  StronglySorted (Mongo.desc_on key) (Mongo.sort_desc key c).
Proof. apply StronglySorted_merge_sort; apply _. Qed.

Lemma sort_desc_perm key c : Mongo.sort_desc key c ≡ₚ c.
Proof. apply merge_sort_Permutation. Qed.

End order.

(** ** The store operations *)

Section store.

Implicit Types (c : collection) (d : document) (v : value).

Lemma matches_empty d : Mongo.matches ∅ d.
Proof. apply map_Forall_empty. Qed.

Lemma matches_singleton k v d : Mongo.matches {[ k := v ]} d ↔ d !! k = Some v.
Proof. unfold Mongo.matches. by rewrite map_Forall_singleton. Qed.

Lemma list_find_first_at {A} (P : A → Prop) `{∀ x, Decision (P x)}
    (l : list A) i x :
  list_find P l = Some (i, x) ↔ first_at P l i x.
Proof. apply list_find_Some. Qed.

Lemma list_find_id c v i d :
  list_find (Mongo.matches {[ "_id" := v ]}) c = Some (i, d) ↔
  first_at (λ d, d !! "_id" = Some v) c i d.
Proof.
  rewrite list_find_first_at. unfold first_at.
  rewrite matches_singleton.
  split; intros (? & ? & Hleast); split_and!; try done;
    intros j y Hj Hlt; specialize (Hleast j y Hj Hlt);
    by rewrite matches_singleton in *.
Qed.

Lemma list_find_id_None c v :
  list_find (Mongo.matches {[ "_id" := v ]}) c = None ↔
  ∀ d, d ∈ c → d !! "_id" ≠ Some v.
Proof.
  rewrite list_find_None, Forall_forall.
  by setoid_rewrite matches_singleton.
Qed.

Lemma list_find_id_is_Some c v d :
  d ∈ c → d !! "_id" = Some v →
  ∃ i d', list_find (Mongo.matches {[ "_id" := v ]}) c = Some (i, d').
Proof.
  intros Hin Hd.
  destruct (list_find_elem_of (Mongo.matches {[ "_id" := v ]}) c d)
    as [[i d'] ?]; [done | by apply matches_singleton | eauto].
Qed.

Lemma find_one_None c v :
  (∀ d, d ∈ c → d !! "_id" ≠ Some v) →
  Mongo.find_one {[ "_id" := v ]} c = None.
Proof.
  intros Hc. unfold Mongo.find_one.
  by rewrite (proj2 (list_find_id_None c v) Hc).
Qed.

Lemma find_one_Some c v d :
  d ∈ c → d !! "_id" = Some v →
  ∃ i d', Mongo.find_one {[ "_id" := v ]} c = Some d' ∧
          first_at (λ d, d !! "_id" = Some v) c i d' ∧ d' ≠ ∅.
Proof.
  intros Hin Hd. destruct (list_find_id_is_Some c v d) as (i & d' & Hf);
    [done..|].
  exists i, d'. unfold Mongo.find_one. rewrite Hf. split; [done|].
  apply list_find_id in Hf. split; [done|].
  destruct Hf as (_ & Hid & _). intros ->. by rewrite lookup_empty in Hid.
Qed.

Lemma find_one_inv c v d' :
  Mongo.find_one {[ "_id" := v ]} c = Some d' →
  ∃ i, first_at (λ d, d !! "_id" = Some v) c i d'.
Proof.
  unfold Mongo.find_one. destruct (list_find _ c) as [[i d]|] eqn:Hf;
    [|done].
  intros [= <-]. exists i. by apply list_find_id.
Qed.

Lemma first_at_elem_of {A} (P : A → Prop) (l : list A) i x :
  first_at P l i x → x ∈ l.
Proof. intros (Hi & _). by eapply list_elem_of_lookup_2. Qed.

(** With unique ids, deleting the document that carries an id leaves no
    document carrying it. *)
Lemma unique_ids_delete c i d v :
  unique_ids c → c !! i = Some d → d !! "_id" = Some v →
  ∀ d', d' ∈ delete i c → d' !! "_id" ≠ Some v.
Proof.
  unfold unique_ids. intros Hnd Hi Hd d' Hin Hd'.
  apply list_elem_of_lookup in Hin as [j Hj].
  destruct (decide (j < i)) as [Hlt|Hge].
  - rewrite list_lookup_delete_lt in Hj by done.
    assert (j = i); [|lia].
    eapply (NoDup_lookup _ j i (Some v)); [done|..];
      rewrite list_lookup_fmap; [by rewrite Hj; simpl; f_equal
                                |by rewrite Hi; simpl; f_equal].
  - rewrite list_lookup_delete_ge in Hj by lia.
    assert (S j = i); [|lia].
    eapply (NoDup_lookup _ (S j) i (Some v)); [done|..];
      rewrite list_lookup_fmap; [by rewrite Hj; simpl; f_equal
                                |by rewrite Hi; simpl; f_equal].
Qed.

End store.

(** ** The authentication prelude *)

(** The three writing endpoints start with the same two checks.  [deny]
    settles a call whose credential is unusable; [authenticate] steps a call
    with a valid teacher past both checks, leaving the looked-up teacher
    record [t'] and the fact [Hfirst] that it is the first with that
    username. *)
Ltac unfold_endpoint :=
  unfold create_announcement, update_announcement, delete_announcement.

Ltac deny H :=
  unfold_endpoint;
  match type of H with
  | unauthorized ?tu ?db =>
      destruct tu as [u|]; simpl in H; [|by eauto];
      destruct H as [->|H]; [by rewrite decide_True by done; eauto|];
      case_decide; [by eauto|];
      unfold bind, teachers_find_one; simpl;
      rewrite (find_one_None _ _ H); by eauto
  end.

Ltac authenticate H :=
  let u := fresh "u" in
  let t := fresh "t" in
  let t' := fresh "t'" in
  let it := fresh "it" in
  let Hu := fresh "Hu" in
  let Ht := fresh "Ht" in
  let Hid := fresh "Hid" in
  let Hfind := fresh "Hfind" in
  let Hfirst := fresh "Hfirst" in
  let Hne := fresh "Hne" in
  destruct H as (u & t & -> & Hu & Ht & Hid);
  destruct (find_one_Some _ _ _ Ht Hid) as (it & t' & Hfind & Hfirst & Hne);
  unfold_endpoint;
  rewrite (decide_False (P := u = "")) by done;
  unfold bind at 1; unfold teachers_find_one; simpl;
  rewrite Hfind; simpl;
  rewrite (decide_False (P := t' = ∅)) by done.

Section endpoints.

Implicit Types (db : database) (env : environment).

Lemma create_unauthorized env title message tu is_active db :
  unauthorized tu db →
  ∃ detail,
    create_announcement env title message tu is_active db
    = (Raise (HTTPException 401 detail), db).
Proof. intros H. deny H. Qed.

Lemma update_unauthorized id tu is_active title message db :
  unauthorized tu db →
  ∃ detail,
    update_announcement id tu is_active title message db
    = (Raise (HTTPException 401 detail), db).
Proof. intros H. deny H. Qed.

Lemma delete_unauthorized id tu db :
  unauthorized tu db →
  ∃ detail,
    delete_announcement id tu db = (Raise (HTTPException 401 detail), db).
Proof. intros H. deny H. Qed.

Lemma build_update_doc_empty is_active title message :
  build_update_doc is_active title message = ∅ ↔
  is_active = None ∧ title = None ∧ message = None.
Proof.
  split.
  - destruct is_active, title, message; simpl; intros Heq; try done;
      by apply insert_non_empty in Heq.
  - by intros (-> & -> & ->).
Qed.

Lemma update_no_fields id tu db :
  valid_teacher tu db →
  update_announcement id tu None None None db
  = (Raise (HTTPException 400 "No fields to update"), db).
Proof. intros H. authenticate H. done. Qed.

End endpoints.

(** ** Case analyses on the store *)

Section cases.

Implicit Types (db : database).

Lemma credential_cases tu db : unauthorized tu db ∨ valid_teacher tu db.
Proof.
  destruct tu as [u|]; [|by left].
  destruct (decide (u = "")) as [->|Hu]; [by left; left|].
  destruct (list_find (Mongo.matches {[ "_id" := VStr u ]})
              (teachers_collection db)) as [[i t]|] eqn:Hf.
  - right. apply list_find_id in Hf. exists u, t. split_and!; try done.
    + by eapply first_at_elem_of.
    + by destruct Hf as (_ & ? & _).
  - left. right. by apply list_find_id_None.
Qed.

Lemma unauthorized_not_valid tu db :
  unauthorized tu db → valid_teacher tu db → False.
Proof.
  intros Hun (u & t & -> & Hu & Ht & Hid). simpl in Hun.
  destruct Hun as [->|Hun]; [done|]. by eapply Hun.
Qed.

Lemma id_cases id db :
  unknown_id id db ∨
  ∃ i d, first_at (has_id id) (announcements_collection db) i d.
Proof.
  destruct (list_find (Mongo.matches {[ "_id" := VStr id ]})
              (announcements_collection db)) as [[i d]|] eqn:Hf.
  - right. exists i, d. by apply list_find_id in Hf.
  - left. unfold unknown_id, has_id. by apply list_find_id_None.
Qed.

Lemma unknown_id_not_first id db i d :
  unknown_id id db →
  first_at (has_id id) (announcements_collection db) i d → False.
Proof.
  intros Hun Hf. eapply Hun; [by eapply first_at_elem_of|].
  by destruct Hf as (_ & ? & _).
Qed.

Lemma first_at_unique {A} (P : A → Prop) (l : list A) i j x y :
  first_at P l i x → first_at P l j y → i = j ∧ x = y.
Proof.
  intros (Hi & Px & Hleast_i) (Hj & Py & Hleast_j).
  assert (i = j) as ->.
  { destruct (decide (i < j)); [by destruct (Hleast_j i x)|].
    destruct (decide (j < i)); [by destruct (Hleast_i j y)|]. lia. }
  split; [done|]. congruence.
Qed.

End cases.

(** ** Update *)

Section update.

Implicit Types (db : database) (d : document).

Lemma build_update_doc_is_active is_active title message :
  build_update_doc is_active title message !! "is_active"
  = VBool <$> is_active.
Proof. by destruct is_active, title, message. Qed.

Lemma build_update_doc_title is_active title message :
  build_update_doc is_active title message !! "title" = VStr <$> title.
Proof.
  destruct is_active, title, message; simpl; by simplify_map_eq.
Qed.

Lemma build_update_doc_message is_active title message :
  build_update_doc is_active title message !! "message" = VStr <$> message.
Proof.
  destruct is_active, title, message; simpl; by simplify_map_eq.
Qed.

Lemma build_update_doc_other is_active title message k :
  k ≠ "is_active" → k ≠ "title" → k ≠ "message" →
  build_update_doc is_active title message !! k = None.
Proof.
  intros. destruct is_active, title, message; simpl; by simplify_map_eq.
Qed.

(** Replacing the first document that carries an id by one that carries
    the same id keeps it the first. *)
Lemma list_find_id_insert (c : collection) v i d d' :
  first_at (λ d, d !! "_id" = Some v) c i d →
  d' !! "_id" = Some v →
  list_find (Mongo.matches {[ "_id" := v ]}) (<[i := d']> c) = Some (i, d').
Proof.
  intros (Hi & Hd & Hleast) Hd'. apply list_find_id. split_and!; [|done|].
  - apply list_lookup_insert_eq. by eapply lookup_lt_Some.
  - intros j y Hj Hlt. rewrite list_lookup_insert_ne in Hj by lia. eauto.
Qed.

Lemma update_found id tu is_active title message db i d :
  valid_teacher tu db →
  build_update_doc is_active title message ≠ ∅ →
  first_at (has_id id) (announcements_collection db) i d →
  let d' := build_update_doc is_active title message ∪ d in
  update_announcement id tu is_active title message db
  = (Return (pop_id d'),
     Database (<[i := d']> (announcements_collection db))
              (teachers_collection db)).
Proof.
  intros Hvalid Hupd Hfirst d'. authenticate Hvalid.
  rewrite decide_False by done.
  unfold bind, announcements_update_one, Mongo.update_one; simpl.
  rewrite (proj2 (list_find_id _ _ _ _) Hfirst); simpl.
  unfold announcements_find_one, Mongo.find_one; simpl.
  erewrite list_find_id_insert; [done|done|].
  subst d'. rewrite lookup_union_r by by apply build_update_doc_other.
  by destruct Hfirst as (_ & ? & _).
Qed.

Lemma update_not_found id tu is_active title message db :
  valid_teacher tu db →
  build_update_doc is_active title message ≠ ∅ →
  unknown_id id db →
  update_announcement id tu is_active title message db
  = (Raise (HTTPException 404 "Announcement not found"), db).
Proof.
  intros Hvalid Hupd Hunknown. authenticate Hvalid.
  rewrite decide_False by done.
  unfold bind, announcements_update_one, Mongo.update_one; simpl.
  rewrite (proj2 (list_find_id_None _ _) Hunknown); simpl.
  by destruct db.
Qed.

End update.

(** ** Delete *)

Section delete.

Implicit Types (db : database) (d : document).

Lemma delete_found id tu db i d :
  valid_teacher tu db →
  first_at (has_id id) (announcements_collection db) i d →
  delete_announcement id tu db
  = (Return deleted_confirmation,
     Database (delete i (announcements_collection db))
              (teachers_collection db)).
Proof.
  intros Hvalid Hfirst. authenticate Hvalid.
  unfold bind, announcements_delete_one, Mongo.delete_one; simpl.
  by rewrite (proj2 (list_find_id _ _ _ _) Hfirst).
Qed.

Lemma delete_not_found id tu db :
  valid_teacher tu db →
  unknown_id id db →
  delete_announcement id tu db
  = (Raise (HTTPException 404 "Announcement not found"), db).
Proof.
  intros Hvalid Hunknown. authenticate Hvalid.
  unfold bind, announcements_delete_one, Mongo.delete_one; simpl.
  rewrite (proj2 (list_find_id_None _ _) Hunknown); simpl.
  by destruct db.
Qed.

End delete.

(** ** Create *)

Section create.

Implicit Types (db : database) (env : environment).

Lemma create_persists env title message u is_active db it teacher dn :
  u ≠ "" →
  first_at (λ t, t !! "_id" = Some (VStr u)) (teachers_collection db)
           it teacher →
  teacher !! "display_name" = Some dn →
  fresh_id env db →
  let stored := persisted_announcement env title message dn is_active in
  create_announcement env title message (Some u) is_active db
  = (Return (<["_id" := VStr (str (VOid (new_object_id env)))]> stored),
     Database (announcements_collection db ++ [stored])
              (teachers_collection db)).
Proof.
  intros Hu Hfirst Hdn Hfresh stored.
  unfold create_announcement. rewrite decide_False by done.
  unfold bind at 1; unfold teachers_find_one, Mongo.find_one; simpl.
  rewrite (proj2 (list_find_id _ _ _ _) Hfirst); simpl.
  rewrite decide_False; last first.
  { intros ->. by rewrite lookup_empty in Hdn. }
  rewrite Hdn. unfold bind, announcements_insert_one, Mongo.insert_one.
  simpl. rewrite decide_False; [done|].
  rewrite Exists_exists. intros (d & Hd & Hid). by eapply Hfresh.
Qed.

End create.

(** ** List *)

Section list.

Implicit Types (db : database) (d : document).

Lemma pop_id_other d k : k ≠ "_id" → pop_id d !! k = d !! k.
Proof. intros. unfold pop_id. by rewrite lookup_delete_ne. Qed.

Lemma pop_id_id d : pop_id d !! "_id" = None.
Proof. apply lookup_delete_eq. Qed.

Lemma pop_id_payload d : payload_of (pop_id d) d.
Proof. split; [apply pop_id_id|]. intros k Hk. by apply pop_id_other. Qed.

Lemma payloads_of_stored (l : list document) :
  Forall2 payload_of (pop_id <$> l) l.
Proof.
  induction l as [|d l IH]; constructor; [apply pop_id_payload|done].
Qed.

Lemma find_empty (c : collection) : Mongo.find ∅ c = c.
Proof.
  unfold Mongo.find. induction c as [|d c IH]; [done|].
  rewrite filter_cons_True by apply matches_empty. by f_equal.
Qed.

Lemma find_active (c : collection) :
  Mongo.find {[ "is_active" := VBool true ]} c = filter is_active_true c.
Proof.
  unfold Mongo.find. apply list_filter_iff. intros d.
  apply matches_singleton.
Qed.

Lemma newest_first_pop_id (l : list document) :
  newest_first l → newest_first (pop_id <$> l).
Proof.
  unfold newest_first. apply StronglySorted_fmap.
  intros d1 d2. unfold Mongo.desc_on. by rewrite !pop_id_other.
Qed.

(** What a listing is: the matching documents, sorted, each without its
    [_id]; the store is not written. *)
Lemma get_announcements_run active_only db :
  get_announcements active_only db
  = (Return (pop_id <$> Mongo.sort_desc "created_at"
               (if default false active_only
                then filter is_active_true (announcements_collection db)
                else announcements_collection db)),
     db).
Proof.
  unfold get_announcements, bind, ret, announcements_find.
  destruct (default false active_only); by rewrite ?find_active, ?find_empty.
Qed.

End list.

(** ** What [$set] does to the targeted document *)

Section set_fields.

Implicit Types (d : document).

Lemma set_is_active is_active title message d :
  (build_update_doc is_active title message ∪ d) !! "is_active"
  = match is_active with
    | Some b => Some (VBool b)
    | None => d !! "is_active"
    end.
Proof.
  destruct is_active as [b|].
  - apply lookup_union_Some_l. by rewrite build_update_doc_is_active.
  - apply lookup_union_r. by rewrite build_update_doc_is_active.
Qed.

Lemma set_title is_active title message d :
  (build_update_doc is_active title message ∪ d) !! "title"
  = match title with
    | Some t => Some (VStr t)
    | None => d !! "title"
    end.
Proof.
  destruct title as [t|].
  - apply lookup_union_Some_l. by rewrite build_update_doc_title.
  - apply lookup_union_r. by rewrite build_update_doc_title.
Qed.

Lemma set_message is_active title message d :
  (build_update_doc is_active title message ∪ d) !! "message"
  = match message with
    | Some m => Some (VStr m)
    | None => d !! "message"
    end.
Proof.
  destruct message as [m|].
  - apply lookup_union_Some_l. by rewrite build_update_doc_message.
  - apply lookup_union_r. by rewrite build_update_doc_message.
Qed.

Lemma set_other is_active title message d k :
  k ≠ "is_active" → k ≠ "title" → k ≠ "message" →
  (build_update_doc is_active title message ∪ d) !! k = d !! k.
Proof. intros. apply lookup_union_r. by apply build_update_doc_other. Qed.

End set_fields.

(** ** Every call either raises with the store untouched or succeeds *)

Section outcomes.

Implicit Types (db : database) (env : environment).

Lemma create_cases env title message tu is_active db :
  (∃ e, create_announcement env title message tu is_active db
        = (Raise e, db)) ∨
  (∃ u it teacher dn,
     tu = Some u ∧ u ≠ "" ∧
     first_at (λ t, t !! "_id" = Some (VStr u)) (teachers_collection db)
              it teacher ∧
     teacher !! "display_name" = Some dn ∧
     fresh_id env db).
Proof.
  destruct (credential_cases tu db) as [Hun|Hvalid].
  { left. destruct (create_unauthorized env title message tu is_active db Hun).
    eauto. }
  authenticate Hvalid.
  apply find_one_inv in Hfind as [i Hi].
  destruct (t' !! "display_name") as [dn|] eqn:Hdn; [|by left; eauto].
  unfold bind, announcements_insert_one, Mongo.insert_one; simpl.
  case_decide as Hdup; [by left; eauto|].
  right. exists u, i, t', dn. split_and!; try done.
  intros d Hd Hd_id. apply Hdup, Exists_exists. eauto.
Qed.

Lemma update_cases id tu is_active title message db :
  (∃ e, update_announcement id tu is_active title message db
        = (Raise e, db)) ∨
  (valid_teacher tu db ∧
   build_update_doc is_active title message ≠ ∅ ∧
   ∃ i d, first_at (has_id id) (announcements_collection db) i d).
Proof.
  destruct (credential_cases tu db) as [Hun|Hvalid].
  { left. destruct (update_unauthorized id tu is_active title message db Hun).
    eauto. }
  destruct (decide (build_update_doc is_active title message = ∅))
    as [Hempty|Hupd].
  { left. apply build_update_doc_empty in Hempty as (-> & -> & ->).
    rewrite update_no_fields by done. eauto. }
  destruct (id_cases id db) as [Hunknown|Hfound]; [|by right].
  left. rewrite update_not_found by done. eauto.
Qed.

Lemma delete_cases id tu db :
  (∃ e, delete_announcement id tu db = (Raise e, db)) ∨
  (valid_teacher tu db ∧
   ∃ i d, first_at (has_id id) (announcements_collection db) i d).
Proof.
  destruct (credential_cases tu db) as [Hun|Hvalid].
  { left. destruct (delete_unauthorized id tu db Hun). eauto. }
  destruct (id_cases id db) as [Hunknown|Hfound]; [|by right].
  left. rewrite delete_not_found by done. eauto.
Qed.

End outcomes.

(** * The claims *)

Section claims.

Implicit Types (db : database) (env : environment).

(** C1.  Listing with [active_only = True] returns exactly the stored
    announcements whose [is_active] is true, and listing with
    [active_only = False] returns every stored announcement: the listed
    records are, one for one, the payloads of a rearrangement [ds] of those
    announcements, each without [_id] and with every other field as stored,
    [is_active] and [created_at] among them.  Both listings are ordered on
    [created_at], newest first, and leave the store as it was; an empty
    store lists as the empty sequence. *)
Theorem list_filters_and_orders db :
  (∃ out ds,
     get_announcements (Some true) db = (Return out, db) ∧
     ds ≡ₚ filter is_active_true (announcements_collection db) ∧
     Forall2 payload_of out ds ∧
     Forall (λ r, r !! "is_active" = Some (VBool true)) out ∧
     newest_first ds ∧ newest_first out) ∧
  (∃ out ds,
     get_announcements (Some false) db = (Return out, db) ∧
     ds ≡ₚ announcements_collection db ∧
     Forall2 payload_of out ds ∧
     newest_first ds ∧ newest_first out) ∧
  (∀ active_only teachers,
     get_announcements active_only (Database [] teachers)
     = (Return [], Database [] teachers)).
Proof.
  split_and!.
  - eexists _, _. split; [apply get_announcements_run|]. simpl. split_and!.
    + apply sort_desc_perm.
    + apply payloads_of_stored.
    + apply Forall_forall. intros r Hr.
      apply list_elem_of_fmap in Hr as (d & -> & Hd).
      rewrite sort_desc_perm in Hd.
      apply list_elem_of_filter in Hd as [Hactive _].
      by rewrite pop_id_other.
    + apply sort_desc_sorted.
    + apply newest_first_pop_id, sort_desc_sorted.
  - eexists _, _. split; [apply get_announcements_run|]. simpl. split_and!.
    + apply sort_desc_perm.
    + apply payloads_of_stored.
    + apply sort_desc_sorted.
    + apply newest_first_pop_id, sort_desc_sorted.
  - intros active_only teachers. rewrite get_announcements_run. simpl.
    by destruct (default false active_only).
Qed.

(** C2.  A create, update or delete whose [teacher_username] is absent,
    empty, or matches no teacher record raises 401 and leaves the store
    exactly as it was. *)
Theorem unauthorized_writes_rejected env id tu title message is_active
    is_active' title' message' db :
  unauthorized tu db →
  (∃ detail, create_announcement env title message tu is_active db
             = (Raise (HTTPException 401 detail), db)) ∧
  (∃ detail, update_announcement id tu is_active' title' message' db
             = (Raise (HTTPException 401 detail), db)) ∧
  (∃ detail, delete_announcement id tu db
             = (Raise (HTTPException 401 detail), db)).
Proof.
  intros Hun. split_and!.
  - by apply create_unauthorized.
  - by apply update_unauthorized.
  - by apply delete_unauthorized.
Qed.

(** C3.  A create that succeeds was called with the username of an
    existing teacher; it appends exactly one record to the announcements,
    whose [created_by] is that teacher's [display_name], whose
    [created_at] is the clock reading in ISO form, and whose [title],
    [message] and [is_active] are the arguments; the returned record is the
    persisted one with its store-assigned identifier in string form. *)
Theorem create_persists_one_record env title message tu is_active db out db' :
  create_announcement env title message tu is_active db = (Return out, db') →
  ∃ u it teacher display_name stored,
    tu = Some u ∧
    first_at (λ t, t !! "_id" = Some (VStr u)) (teachers_collection db)
             it teacher ∧
    teacher !! "display_name" = Some display_name ∧
    announcements_collection db' = announcements_collection db ++ [stored] ∧
    teachers_collection db' = teachers_collection db ∧
    stored = {[ "_id" := VOid (new_object_id env);
                "title" := VStr title;
                "message" := VStr message;
                "created_by" := display_name;
                "created_at" := VStr (utcnow_isoformat env);
                "is_active" := VBool is_active ]} ∧
    fresh_id env db ∧
    out = <["_id" := VStr (str (VOid (new_object_id env)))]> stored ∧
    (∀ k, k ≠ "_id" → out !! k = stored !! k).
Proof.
  intros Hrun.
  destruct (create_cases env title message tu is_active db)
    as [[e He]|(u & it & teacher & dn & -> & Hu & Hfirst & Hdn & Hfresh)];
    [congruence|].
  rewrite (create_persists _ _ _ _ _ _ _ _ _ Hu Hfirst Hdn Hfresh) in Hrun.
  injection Hrun as <- <-.
  exists u, it, teacher, dn, (persisted_announcement env title message dn
                               is_active).
  split_and!; try done.
  intros k Hk. by rewrite lookup_insert_ne.
Qed.

(** C4.  A successful update targets the first stored announcement with
    the given id; in it each supplied field takes the supplied value and
    every other field, [created_by] and [created_at] among them, keeps its
    value; every other announcement and the teachers are unchanged; the
    returned record is the targeted announcement after the update, field
    for field, without its [_id]. *)
Theorem update_changes_only_supplied id tu is_active title message
    db out db' :
  update_announcement id tu is_active title message db = (Return out, db') →
  ∃ i d d',
    first_at (has_id id) (announcements_collection db) i d ∧
    announcements_collection db' !! i = Some d' ∧
    payload_of out d' ∧
    d' !! "is_active" = match is_active with
                        | Some b => Some (VBool b)
                        | None => d !! "is_active"
                        end ∧
    d' !! "title" = match title with
                    | Some t => Some (VStr t)
                    | None => d !! "title"
                    end ∧
    d' !! "message" = match message with
                      | Some m => Some (VStr m)
                      | None => d !! "message"
                      end ∧
    d' !! "created_by" = d !! "created_by" ∧
    d' !! "created_at" = d !! "created_at" ∧
    (∀ k, k ≠ "is_active" → k ≠ "title" → k ≠ "message" →
          d' !! k = d !! k) ∧
    length (announcements_collection db')
    = length (announcements_collection db) ∧
    (∀ j, j ≠ i →
          announcements_collection db' !! j
          = announcements_collection db !! j) ∧
    teachers_collection db' = teachers_collection db.
Proof.
  intros Hrun.
  destruct (update_cases id tu is_active title message db)
    as [[e He]|(Hvalid & Hupd & i & d & Hfirst)]; [congruence|].
  rewrite (update_found _ _ _ _ _ _ _ _ Hvalid Hupd Hfirst) in Hrun.
  injection Hrun as <- <-. simpl.
  exists i, d, (build_update_doc is_active title message ∪ d).
  split_and!; try done.
  - apply list_lookup_insert_eq. destruct Hfirst as (Hi & _).
    by eapply lookup_lt_Some.
  - apply pop_id_payload.
  - apply set_is_active.
  - apply set_title.
  - apply set_message.
  - by apply set_other.
  - by apply set_other.
  - apply set_other.
  - apply length_insert.
  - intros j Hj. by apply list_lookup_insert_ne.
Qed.

End claims.

Section claims_errors.

Implicit Types (db : database) (env : environment).

(** C5.  An update by a valid teacher that supplies none of [is_active],
    [title], [message] raises 400 and leaves the store as it was. *)
Theorem update_without_fields_rejected id tu db :
  valid_teacher tu db →
  update_announcement id tu None None None db
  = (Raise (HTTPException 400 "No fields to update"), db).
Proof. apply update_no_fields. Qed.

(** C6.  An update by a valid teacher that supplies at least one field but
    names an id no announcement has raises 404 and leaves the store as it
    was. *)
Theorem update_unknown_id_rejected id tu is_active title message db :
  valid_teacher tu db →
  is_Some is_active ∨ is_Some title ∨ is_Some message →
  unknown_id id db →
  update_announcement id tu is_active title message db
  = (Raise (HTTPException 404 "Announcement not found"), db).
Proof.
  intros Hvalid Hsupplied Hunknown. apply update_not_found; [done| |done].
  rewrite build_update_doc_empty. intros (-> & -> & ->).
  destruct Hsupplied as [[? [=]]|[[? [=]]|[? [=]]]].
Qed.

(** Delete on announcements stored under a string [_id].  A delete by a
    valid teacher: when some stored [_id] is the path string itself, the
    first such record is removed from the store, the call returns only the
    status message, and (ids being unique) every record of a subsequent
    listing is the payload of a remaining announcement with a different
    id; when no stored [_id] is that string, the call raises 404 and leaves
    the store as it was. *)
Theorem delete_removes_or_not_found id tu db :
  valid_teacher tu db →
  (∀ i d,
     first_at (has_id id) (announcements_collection db) i d →
     ∃ db',
       delete_announcement id tu db
       = (Return {[ "message" := VStr "Announcement deleted successfully" ]},
          db') ∧
       announcements_collection db'
       = delete i (announcements_collection db) ∧
       teachers_collection db' = teachers_collection db ∧
       (unique_ids (announcements_collection db) →
        unknown_id id db' ∧
        ∀ active_only, ∃ out,
          get_announcements active_only db' = (Return out, db') ∧
          ∀ r, r ∈ out →
               ∃ d', d' ∈ announcements_collection db ∧
                     ¬ has_id id d' ∧ r = pop_id d')) ∧
  (unknown_id id db →
   delete_announcement id tu db
   = (Raise (HTTPException 404 "Announcement not found"), db)).
Proof.
  intros Hvalid. split; [|by apply delete_not_found].
  intros i d Hfirst. eexists. split; [by apply (delete_found _ _ _ i d)|].
  simpl.
  split_and!; try done. intros Huniq.
  assert (Hgone : ∀ d', d' ∈ delete i (announcements_collection db) →
                        ¬ has_id id d').
  { destruct Hfirst as (Hi & Hd & _).
    by apply (unique_ids_delete _ i d (VStr id)). }
  split; [done|].
  intros active_only. eexists. split; [apply get_announcements_run|].
  simpl. intros r Hr.
  apply list_elem_of_fmap in Hr as (d' & -> & Hd').
  rewrite sort_desc_perm in Hd'.
  assert (d' ∈ delete i (announcements_collection db)) as Hin.
  { destruct (default false active_only); [|done].
    by apply list_elem_of_filter in Hd' as [_ ?]. }
  exists d'. split_and!; [|by apply Hgone|done].
  by eapply list_elem_of_delete_inv.
Qed.

(** C8, as amended.  Every record of a listing is a stored announcement
    with its [_id] field, the announcement's identifier, removed and every
    other field retained. *)
Theorem list_payload_drops_id active_only db :
  ∃ out,
    get_announcements active_only db = (Return out, db) ∧
    ∀ r, r ∈ out →
         r !! "_id" = None ∧
         ∃ d, d ∈ announcements_collection db ∧ r = pop_id d ∧
              ∀ k, k ≠ "_id" → r !! k = d !! k.
Proof.
  eexists. split; [apply get_announcements_run|]. intros r Hr.
  apply list_elem_of_fmap in Hr as (d & -> & Hd).
  rewrite sort_desc_perm in Hd.
  split; [apply pop_id_id|]. exists d. split_and!; [|done|].
  - destruct (default false active_only); [|done].
    by apply list_elem_of_filter in Hd as [_ ?].
  - intros k Hk. by apply pop_id_other.
Qed.

(** C9, as amended.  Whatever the request, if every stored title is
    non-empty and the title the request supplies (to create, or to update
    when it supplies one) is not the empty string, every stored title is
    non-empty afterwards. *)
Theorem nonempty_titles_preserved env (r : request) db :
  titles_nonempty (announcements_collection db) →
  supplied_title r ≠ Some "" →
  titles_nonempty (announcements_collection (router env r db).2).
Proof.
  intros Hinv Htitle.
  destruct r as [a|title message tu ia|id tu ia title message|id tu];
    unfold router, bind, ret.
  - by rewrite get_announcements_run.
  - destruct (create_cases env title message tu ia db)
      as [[e ->]|(u & it & teacher & dn & -> & Hu & Hfirst & Hdn & Hfresh)];
      [done|].
    rewrite (create_persists _ _ _ _ _ _ _ _ _ Hu Hfirst Hdn Hfresh). simpl.
    apply Forall_app. split; [done|]. apply Forall_singleton.
    exists title. split; [done|]. simpl in Htitle. congruence.
  - destruct (update_cases id tu ia title message db)
      as [[e ->]|(Hvalid & Hupd & i & d & Hfirst)]; [done|].
    rewrite (update_found _ _ _ _ _ _ _ _ Hvalid Hupd Hfirst). simpl.
    apply Forall_insert; [done|]. unfold title_nonempty.
    rewrite set_title. destruct title as [t|].
    + exists t. split; [done|]. simpl in Htitle. congruence.
    + eapply (Forall_forall title_nonempty); [done|].
      by eapply first_at_elem_of.
  - destruct (delete_cases id tu db)
      as [[e ->]|(Hvalid & i & d & Hfirst)]; [done|].
    rewrite (delete_found _ _ _ _ _ Hvalid Hfirst). simpl.
    by apply Forall_delete.
Qed.

(** C10.  The checks run in the order 401, 400, 404: an update without a
    usable credential raises 401 whatever the id and the supplied fields;
    an update by a valid teacher with no field supplied and an unknown id
    raises 400; a delete without a usable credential raises 401 whatever
    the id, an unknown one included. *)
Theorem error_checks_ordered id tu is_active title message db :
  (unauthorized tu db →
   ∃ detail,
     update_announcement id tu is_active title message db
     = (Raise (HTTPException 401 detail), db)) ∧
  (valid_teacher tu db → unknown_id id db →
   update_announcement id tu None None None db
   = (Raise (HTTPException 400 "No fields to update"), db)) ∧
  (unauthorized tu db →
   (∃ detail,
      delete_announcement id tu db
      = (Raise (HTTPException 401 detail), db)) ∧
   (unknown_id id db →
    ∃ detail,
      delete_announcement id tu db
      = (Raise (HTTPException 401 detail), db))).
Proof.
  split_and!.
  - apply update_unauthorized.
  - intros Hvalid _. by apply update_no_fields.
  - intros Hun. split; [|intros _]; by apply delete_unauthorized.
Qed.

End claims_errors.

(** * Concrete runs on the small school *)

Section runs.

Lemma jones_is_valid : valid_teacher (Some "t_jones") school.
Proof.
  exists "t_jones", ms_jones. split_and!; [done|done| |done].
  apply list_elem_of_here.
Defined.

Lemma mallory_is_unauthorized : unauthorized (Some "mallory") school.
Proof.
  right. intros t Ht. apply list_elem_of_singleton in Ht as ->. done.
Defined.

Lemma a9_is_unknown : unknown_id "a9" school.
Proof.
  intros d Hd. unfold has_id.
  apply elem_of_cons in Hd as [->|Hd]; [done|].
  apply list_elem_of_singleton in Hd as ->. done.
Defined.

Lemma a1_is_second : first_at (has_id "a1") (announcements_collection school)
                              1 exam_notice.
Proof.
  split_and!; [done|done|].
  intros j y Hj Hlt. assert (j = 0) as -> by lia.
  injection Hj as <-. done.
Defined.

Lemma school_unique_ids : unique_ids (announcements_collection school).
Proof.
  change (NoDup [Some (VOid 4096); Some (VStr "a1")]).
  apply NoDup_cons. split; [|apply NoDup_singleton].
  rewrite list_elem_of_singleton. done.
Defined.

Lemma school_titles_nonempty :
  titles_nonempty (announcements_collection school).
Proof.
  repeat constructor; [by exists "Welcome back" | by exists "Exam"].
Defined.

Lemma unauthorized_writes_rejected_witness :
  unauthorized (Some "mallory") school ∧
  (∃ detail, create_announcement monday "Party" "Tonight" (Some "mallory")
               true school
             = (Raise (HTTPException 401 detail), school)) ∧
  (∃ detail, update_announcement "a1" (Some "mallory") (Some false) None
               None school
             = (Raise (HTTPException 401 detail), school)) ∧
  (∃ detail, delete_announcement "a1" (Some "mallory") school
             = (Raise (HTTPException 401 detail), school)).
Proof.
  split; [exact mallory_is_unauthorized|].
  exact (unauthorized_writes_rejected monday "a1" (Some "mallory")
           "Party" "Tonight" true (Some false) None None school
           mallory_is_unauthorized).
Defined.

Lemma create_sports_day :
  create_announcement monday "Sports day" "Bring trainers" (Some "t_jones")
    true school
  = (Return (<["_id" := VStr "0000000000000000000000ff"]> sports_day),
     Database [old_notice; exam_notice; sports_day] [ms_jones]).
Proof. by vm_compute. Defined.

Lemma create_persists_one_record_witness :
  create_announcement monday "Sports day" "Bring trainers" (Some "t_jones")
    true school
  = (Return (<["_id" := VStr "0000000000000000000000ff"]> sports_day),
     Database [old_notice; exam_notice; sports_day] [ms_jones]) ∧
  ∃ u it teacher display_name stored,
    Some "t_jones" = Some u ∧
    first_at (λ t, t !! "_id" = Some (VStr u)) [ms_jones] it teacher ∧
    teacher !! "display_name" = Some display_name ∧
    [old_notice; exam_notice; sports_day]
    = [old_notice; exam_notice] ++ [stored] ∧
    [ms_jones] = [ms_jones] ∧
    stored = {[ "_id" := VOid 255;
                "title" := VStr "Sports day";
                "message" := VStr "Bring trainers";
                "created_by" := display_name;
                "created_at" := VStr "2024-01-08T09:30:00";
                "is_active" := VBool true ]} ∧
    fresh_id monday school ∧
    <["_id" := VStr "0000000000000000000000ff"]> sports_day
    = <["_id" := VStr (str (VOid 255))]> stored ∧
    (∀ k, k ≠ "_id" →
          <["_id" := VStr "0000000000000000000000ff"]> sports_day !! k
          = stored !! k).
Proof.
  split; [exact create_sports_day|].
  exact (create_persists_one_record monday "Sports day" "Bring trainers"
           (Some "t_jones") true school _ _ create_sports_day).
Defined.

Lemma deactivate_exam_notice :
  update_announcement "a1" (Some "t_jones") (Some false) None None school
  = (Return (pop_id exam_notice_off),
     Database [old_notice; exam_notice_off] [ms_jones]).
Proof. by vm_compute. Defined.

Lemma deactivate_exam_notice_payload :
  update_announcement "a1" (Some "t_jones") (Some false) None None school
  = (Return exam_notice_off_payload,
     Database [old_notice; exam_notice_off] [ms_jones]).
Proof. by vm_compute. Defined.

Lemma update_changes_only_supplied_witness :
  update_announcement "a1" (Some "t_jones") (Some false) None None school
  = (Return exam_notice_off_payload,
     Database [old_notice; exam_notice_off] [ms_jones]) ∧
  ∃ i d d',
    first_at (has_id "a1") [old_notice; exam_notice] i d ∧
    [old_notice; exam_notice_off] !! i = Some d' ∧
    payload_of exam_notice_off_payload d' ∧
    d' !! "is_active" = Some (VBool false) ∧
    d' !! "title" = d !! "title" ∧
    d' !! "message" = d !! "message" ∧
    d' !! "created_by" = d !! "created_by" ∧
    d' !! "created_at" = d !! "created_at" ∧
    (∀ k, k ≠ "is_active" → k ≠ "title" → k ≠ "message" →
          d' !! k = d !! k) ∧
    length [old_notice; exam_notice_off]
    = length [old_notice; exam_notice] ∧
    (∀ j, j ≠ i →
          [old_notice; exam_notice_off] !! j
          = [old_notice; exam_notice] !! j) ∧
    [ms_jones] = [ms_jones].
Proof.
  split; [exact deactivate_exam_notice_payload|].
  exact (update_changes_only_supplied "a1" (Some "t_jones") (Some false)
           None None school _ _ deactivate_exam_notice_payload).
Defined.

Lemma update_without_fields_rejected_witness :
  valid_teacher (Some "t_jones") school ∧
  update_announcement "a1" (Some "t_jones") None None None school
  = (Raise (HTTPException 400 "No fields to update"), school).
Proof.
  split; [exact jones_is_valid|].
  exact (update_without_fields_rejected "a1" (Some "t_jones") school
           jones_is_valid).
Defined.

Lemma update_unknown_id_rejected_witness :
  valid_teacher (Some "t_jones") school ∧
  (is_Some (Some false) ∨ is_Some (@None string) ∨ is_Some (@None string)) ∧
  unknown_id "a9" school ∧
  update_announcement "a9" (Some "t_jones") (Some false) None None school
  = (Raise (HTTPException 404 "Announcement not found"), school).
Proof.
  split_and!; [exact jones_is_valid|left; by exists false
              |exact a9_is_unknown|].
  exact (update_unknown_id_rejected "a9" (Some "t_jones") (Some false)
           None None school jones_is_valid
           (or_introl (ex_intro _ false eq_refl)) a9_is_unknown).
Defined.

Lemma delete_removes_or_not_found_witness :
  valid_teacher (Some "t_jones") school ∧
  (∃ db',
     delete_announcement "a1" (Some "t_jones") school
     = (Return {[ "message" := VStr "Announcement deleted successfully" ]},
        db') ∧
     announcements_collection db' = [old_notice] ∧
     unknown_id "a1" db') ∧
  delete_announcement "a9" (Some "t_jones") school
  = (Raise (HTTPException 404 "Announcement not found"), school).
Proof.
  split; [exact jones_is_valid|].
  destruct (delete_removes_or_not_found "a1" (Some "t_jones") school
              jones_is_valid) as [Hfound _].
  destruct (Hfound 1 exam_notice a1_is_second)
    as (db' & Hrun & Hanns & _ & Hlist).
  destruct (Hlist school_unique_ids) as [Hgone _].
  split.
  - exists db'. split_and!; [exact Hrun|exact Hanns|exact Hgone].
  - apply delete_removes_or_not_found;
      [exact jones_is_valid|exact a9_is_unknown].
Defined.

Lemma nonempty_titles_preserved_witness :
  let r := PATCH "a1" (Some "t_jones") None (Some "Exam moved") None in
  titles_nonempty (announcements_collection school) ∧
  supplied_title r ≠ Some "" ∧
  titles_nonempty (announcements_collection (router monday r school).2).
Proof.
  intros r.
  assert (Hr : supplied_title r ≠ Some "") by done.
  split_and!; [exact school_titles_nonempty|exact Hr|].
  exact (nonempty_titles_preserved monday r school school_titles_nonempty
           Hr).
Defined.

Lemma error_checks_ordered_witness :
  (∃ detail,
     update_announcement "a9" (Some "mallory") None None None school
     = (Raise (HTTPException 401 detail), school)) ∧
  update_announcement "a9" (Some "t_jones") None None None school
  = (Raise (HTTPException 400 "No fields to update"), school) ∧
  (∃ detail,
     delete_announcement "a9" (Some "mallory") school
     = (Raise (HTTPException 401 detail), school)).
Proof.
  destruct (error_checks_ordered "a9" (Some "mallory") None None None school)
    as (Hupdate & _ & Hdelete).
  destruct (error_checks_ordered "a9" (Some "t_jones") None None None school)
    as (_ & Hfields & _).
  split_and!.
  - exact (Hupdate mallory_is_unauthorized).
  - exact (Hfields jones_is_valid a9_is_unknown).
  - exact (proj2 (Hdelete mallory_is_unauthorized) a9_is_unknown).
Defined.

Lemma list_school :
  get_announcements None school
  = (Return [pop_id exam_notice; pop_id old_notice], school).
Proof. by vm_compute. Qed.

(** C8, as stated, fails: the listing of the small school returns the exam
    notice without any field that holds its identifier. *)
Lemma list_drops_identifier : ¬ retains_identifier None school.
Proof.
  intros Hretains.
  destruct (Hretains _ _ list_school (pop_id exam_notice))
    as (d & v & Hd & Hv & Hagree & k & Hk); [apply list_elem_of_here|].
  assert (Hno : map_Forall (λ _ x, x ≠ VStr "a1") (pop_id exam_notice)).
  { apply (bool_decide_unpack _). by vm_compute. }
  apply elem_of_cons in Hd as [->|Hd].
  - by specialize (Hagree "title" ltac:(done)).
  - apply list_elem_of_singleton in Hd as ->.
    injection Hv as <-. simpl in Hk.
    destruct Hk as [Hk|Hk]; by apply (Hno k _ Hk).
Qed.

(** C9, as stated, fails: with every stored title non-empty, a create with
    an empty title succeeds and stores it, and so does an update that
    supplies an empty title. *)
Lemma empty_title_is_stored :
  titles_nonempty (announcements_collection school) ∧
  (∃ out db',
     create_announcement monday "" "Bring trainers" (Some "t_jones") true
       school = (Return out, db') ∧
     ¬ titles_nonempty (announcements_collection db')) ∧
  (∃ out db',
     update_announcement "a1" (Some "t_jones") None (Some "") None school
     = (Return out, db') ∧
     ¬ titles_nonempty (announcements_collection db')).
Proof.
  split_and!; [exact school_titles_nonempty|..].
  - eexists _, _. split; [by vm_compute|]. intros Hall.
    inversion_clear Hall as [|? ? _ Hall1].
    inversion_clear Hall1 as [|? ? _ Hall2].
    inversion_clear Hall2 as [|? ? (t & Ht & Hne) _].
    vm_compute in Ht. congruence.
  - eexists _, _. split; [by vm_compute|]. intros Hall.
    inversion_clear Hall as [|? ? _ Hall1].
    inversion_clear Hall1 as [|? ? (t & Ht & Hne) _].
    vm_compute in Ht. congruence.
Qed.

(** C7, where the code falls short of it.  Ms. Jones creates an
    announcement in a school that has none and is handed its identifier;
    the announcement exists, and the listing shows it.  Her delete with
    that identifier raises 404 and removes nothing, and the next listing
    still shows the announcement: the record is stored under an
    [ObjectId], the identifier handed out is its string form, and delete
    looks the path parameter up as a string. *)
Theorem delete_by_returned_id_not_found :
  let db0 := Database [] [ms_jones] in
  let db1 := Database [sports_day] [ms_jones] in
  let id := "0000000000000000000000ff" in
  create_announcement monday "Sports day" "Bring trainers" (Some "t_jones")
    true db0
  = (Return (<["_id" := VStr id]> sports_day_payload), db1) ∧
  get_announcements None db1 = (Return [sports_day_payload], db1) ∧
  delete_announcement id (Some "t_jones") db1
  = (Raise (HTTPException 404 "Announcement not found"), db1).
Proof. split_and!; by vm_compute. Qed.

End runs.

(** * Whole requests *)

Section requests.

Implicit Types (db : database) (env : environment) (r : request).

(** A request either raises with the store as it was, or returns after the
    one write its endpoint makes. *)
Lemma router_outcome env r db :
  (∃ e, router env r db = (Raise e, db)) ∨
  (∃ b db', router env r db = (Return b, db') ∧ written env r db db').
Proof.
  destruct r as [a|title message tu ia|id tu ia title message|id tu];
    unfold router, bind, ret.
  - right. rewrite get_announcements_run. eexists _, _. split; [done|].
    constructor.
  - destruct (create_cases env title message tu ia db)
      as [[e ->]|(u & it & teacher & dn & -> & Hu & Hfirst & Hdn & Hfresh)];
      [by left; eauto|].
    right. rewrite (create_persists _ _ _ _ _ _ _ _ _ Hu Hfirst Hdn Hfresh).
    eexists _, _. split; [done|]. by econstructor.
  - destruct (update_cases id tu ia title message db)
      as [[e ->]|(Hvalid & Hupd & i & d & Hfirst)]; [by left; eauto|].
    right. rewrite (update_found _ _ _ _ _ _ _ _ Hvalid Hupd Hfirst).
    eexists _, _. split; [done|]. by econstructor.
  - destruct (delete_cases id tu db)
      as [[e ->]|(Hvalid & i & d & Hfirst)]; [by left; eauto|].
    right. rewrite (delete_found _ _ _ _ _ Hvalid Hfirst).
    eexists _, _. split; [done|]. by econstructor.
Qed.

(** The store after a request is the store before it, or one [written]
    from it. *)
Lemma router_store env r db :
  (router env r db).2 = db ∨ written env r db (router env r db).2.
Proof.
  destruct (router_outcome env r db) as [[e ->]|(b & db' & -> & Hw)];
    [by left|by right].
Qed.

Lemma updated_same_origin is_active title message d :
  same_origin d (build_update_doc is_active title message ∪ d).
Proof. split_and!; by apply set_other. Qed.

Lemma persisted_well_formed env title message dn is_active :
  well_formed_announcement
    (persisted_announcement env title message dn is_active).
Proof. split_and!; by eauto. Qed.

Lemma updated_well_formed is_active title message d :
  well_formed_announcement d →
  well_formed_announcement (build_update_doc is_active title message ∪ d).
Proof.
  intros (Hid & Ht & Hm & Hby & Hat & Hact). unfold well_formed_announcement.
  rewrite set_is_active, set_title, set_message, !set_other by done.
  split_and!; try done.
  - destruct title; eauto.
  - destruct message; eauto.
  - destruct is_active; eauto.
Qed.

(** X1.  A request that raises, whatever the exception, leaves both
    collections exactly as they were: no endpoint raises after a write. *)
Theorem raise_leaves_store env r db e db' :
  router env r db = (Raise e, db') → db' = db.
Proof.
  intros Hrun.
  destruct (router_outcome env r db) as [[e' He]|(b & db'' & Hb & _)];
    congruence.
Qed.

(** X2.  No request writes to the teachers collection. *)
Theorem teachers_never_written env r db :
  teachers_collection (router env r db).2 = teachers_collection db.
Proof.
  destruct (router_store env r db) as [->|Hw]; [done|].
  by destruct Hw.
Qed.

(** X3.  If no two stored announcements share an [_id], then none do after
    any request: create refuses an identifier in use, update never sets
    [_id], delete only removes. *)
Theorem unique_ids_preserved env r db :
  unique_ids (announcements_collection db) →
  unique_ids (announcements_collection (router env r db).2).
Proof.
  intros Huniq. destruct (router_store env r db) as [->|Hw]; [done|].
  destruct Hw as [| ? ? ? ? ? ? ? ? _ _ _ Hfresh
                  | ? ? ? ? ? ? i d _ _ (Hi & _)
                  | ? ? ? i d _ _]; simpl; unfold unique_ids in *.
  - done.
  - rewrite fmap_app. apply NoDup_app. split_and!; [done| |].
    + intros x Hx Hnew. apply list_elem_of_singleton in Hnew as ->.
      apply list_elem_of_fmap in Hx as (d & Hd & Hin). by eapply Hfresh.
    + apply NoDup_singleton.
  - rewrite list_fmap_insert, set_other by done.
    rewrite list_insert_id; [done|]. by rewrite list_lookup_fmap, Hi.
  - rewrite list_fmap_delete. eapply sublist_NoDup; [done|apply sublist_delete].
Qed.

(** X4.  A create that returns adds one announcement, a delete that returns
    removes one, and every other request, returning or raising, leaves the
    number of announcements as it was. *)
Theorem request_changes_count env r db :
  let before := length (announcements_collection db) in
  let after := length (announcements_collection (router env r db).2) in
  match (router env r db).1, r with
  | Return _, POST _ _ _ _ => after = S before
  | Return _, DELETE _ _ => S after = before
  | _, _ => after = before
  end.
Proof.
  cbv zeta.
  destruct (router_outcome env r db) as [[e ->]|(b & db' & -> & Hw)]; simpl.
  - done.
  - destruct Hw as [| | |? ? ? i d _ (Hi & _)]; simpl.
    + done.
    + rewrite length_app. simpl. lia.
    + apply length_insert.
    + rewrite length_delete by by eexists.
      apply lookup_lt_Some in Hi. lia.
Qed.

(** X5.  The shape of stored announcements is an invariant: if every stored
    announcement has an [_id], a string title, message and [created_at], a
    [created_by] and a boolean [is_active], so does every stored
    announcement after any request. *)
Theorem well_formed_preserved env r db :
  Forall well_formed_announcement (announcements_collection db) →
  Forall well_formed_announcement
    (announcements_collection (router env r db).2).
Proof.
  intros Hwf. destruct (router_store env r db) as [->|Hw]; [done|].
  destruct Hw as [| | ? ? ? ? ? ? i d _ _ Hfirst|]; simpl.
  - done.
  - apply Forall_app. split; [done|]. apply Forall_singleton.
    apply persisted_well_formed.
  - apply Forall_insert; [done|]. apply updated_well_formed.
    eapply (Forall_forall well_formed_announcement); [done|].
    by eapply first_at_elem_of.
  - by apply Forall_delete.
Qed.

(** X6.  Identity and authorship are never rewritten: after any request,
    every stored announcement either has the [_id], [created_by] and
    [created_at] of an announcement stored before it, or is the record the
    request just created, stamped with the clock reading. *)
Theorem origin_never_rewritten env r db d' :
  d' ∈ announcements_collection (router env r db).2 →
  (∃ d, d ∈ announcements_collection db ∧ same_origin d d') ∨
  (∃ title message tu is_active,
     r = POST title message tu is_active ∧
     d' !! "_id" = Some (VOid (new_object_id env)) ∧
     d' !! "created_at" = Some (VStr (utcnow_isoformat env))).
Proof.
  intros Hin. destruct (router_store env r db) as [Heq|Hw].
  { left. exists d'. rewrite Heq in Hin. by split. }
  destruct Hw as [| | ? ? ? ? ? ? i d _ _ Hfirst|? ? ? i d _ _];
    simpl in Hin.
  - left. exists d'. by split.
  - apply elem_of_app in Hin as [Hin|Hin].
    + left. exists d'. by split.
    + right. apply list_elem_of_singleton in Hin as ->. by eauto 10.
  - left. apply list_elem_of_lookup_1 in Hin as [j Hj].
    destruct (decide (j = i)) as [->|Hne].
    + destruct Hfirst as (Hi & _).
      rewrite list_lookup_insert_eq in Hj by by eapply lookup_lt_Some.
      injection Hj as <-. exists d.
      split; [by eapply list_elem_of_lookup_2|apply updated_same_origin].
    + rewrite list_lookup_insert_ne in Hj by done.
      exists d'. split; [by eapply list_elem_of_lookup_2|done].
  - left. exists d'. split; [by eapply list_elem_of_delete_inv|done].
Qed.

End requests.

(** * How the endpoints compose *)

Section composition.

Implicit Types (db : database) (env : environment) (d : document).

Lemma first_at_insert (c : collection) v i d d' :
  first_at (λ d, d !! "_id" = Some v) c i d →
  d' !! "_id" = Some v →
  first_at (λ d, d !! "_id" = Some v) (<[i := d']> c) i d'.
Proof.
  intros Hfirst Hd'. apply list_find_id. by eapply list_find_id_insert.
Qed.

Lemma set_fields_twice is_active title message d :
  build_update_doc is_active title message
    ∪ (build_update_doc is_active title message ∪ d)
  = build_update_doc is_active title message ∪ d.
Proof. by rewrite (assoc_L (∪)), (idemp_L (∪)). Qed.

Lemma pop_id_insert_id d v : pop_id (<["_id" := v]> d) = pop_id d.
Proof. apply delete_insert_eq. Qed.

Lemma sorted_elem_of key (c : collection) d :
  d ∈ Mongo.sort_desc key c ↔ d ∈ c.
Proof. by rewrite sort_desc_perm. Qed.

(** With unique ids, the document found under an id is the only one that
    carries it. *)
Lemma unique_ids_first_only (c : collection) v i d j d' :
  unique_ids c →
  first_at (λ d, d !! "_id" = Some v) c i d →
  c !! j = Some d' → d' !! "_id" = Some v → j = i.
Proof.
  intros Huniq (Hi & Hd & _) Hj Hd'.
  eapply (NoDup_lookup _ j i (Some v)); [exact Huniq|..];
    rewrite list_lookup_fmap; [by rewrite Hj; simpl; f_equal
                              |by rewrite Hi; simpl; f_equal].
Qed.

Lemma unknown_after_delete id db i d :
  unique_ids (announcements_collection db) →
  first_at (has_id id) (announcements_collection db) i d →
  unknown_id id
    (Database (delete i (announcements_collection db))
              (teachers_collection db)).
Proof.
  intros Huniq (Hi & Hd & _) d' Hd'. simpl in Hd'.
  by apply (unique_ids_delete (announcements_collection db) i d (VStr id)).
Qed.

(** X7.  Update is idempotent: repeating a successful update on the store
    it produced succeeds again, returns the same record and leaves that
    store as it is. *)
Theorem update_idempotent id tu is_active title message db out db' :
  update_announcement id tu is_active title message db = (Return out, db') →
  update_announcement id tu is_active title message db' = (Return out, db').
Proof.
  intros Hrun.
  destruct (update_cases id tu is_active title message db)
    as [[e He]|(Hvalid & Hupd & i & d & Hfirst)]; [congruence|].
  rewrite (update_found _ _ _ _ _ _ _ _ Hvalid Hupd Hfirst) in Hrun.
  injection Hrun as <- <-.
  set (d' := build_update_doc is_active title message ∪ d).
  assert (Hfirst' : first_at (has_id id)
                      (<[i := d']> (announcements_collection db)) i d').
  { apply first_at_insert with d; [done|]. subst d'.
    rewrite set_other by done. by destruct Hfirst as (_ & ? & _). }
  rewrite (update_found id tu is_active title message
             (Database (<[i := d']> (announcements_collection db))
                       (teachers_collection db)) i d' Hvalid Hupd Hfirst').
  simpl. subst d'. by rewrite set_fields_twice, list_insert_insert_eq.
Qed.

(** X8.  With unique ids, a deleted announcement is gone: after a successful
    delete, a second delete of the same id raises 404, and so does any
    update of it that supplies a field. *)
Theorem deleted_is_gone id tu db out db' :
  unique_ids (announcements_collection db) →
  delete_announcement id tu db = (Return out, db') →
  delete_announcement id tu db'
  = (Raise (HTTPException 404 "Announcement not found"), db') ∧
  ∀ is_active title message,
    build_update_doc is_active title message ≠ ∅ →
    update_announcement id tu is_active title message db'
    = (Raise (HTTPException 404 "Announcement not found"), db').
Proof.
  intros Huniq Hrun.
  destruct (delete_cases id tu db)
    as [[e He]|(Hvalid & i & d & Hfirst)]; [congruence|].
  rewrite (delete_found _ _ _ _ _ Hvalid Hfirst) in Hrun.
  injection Hrun as <- <-.
  pose proof (unknown_after_delete id db i d Huniq Hfirst) as Hgone.
  split.
  - by apply delete_not_found.
  - intros is_active title message Hupd. by apply update_not_found.
Qed.

(** X9.  A created announcement is listed: after a successful create the
    full listing has one record more and contains the returned record
    (without its [_id]), and the active-only listing contains it exactly
    when it was created active. *)
Theorem created_is_listed env title message tu is_active db out db' :
  create_announcement env title message tu is_active db = (Return out, db') →
  ∃ lall lactive,
    get_announcements None db' = (Return lall, db') ∧
    get_announcements (Some true) db' = (Return lactive, db') ∧
    pop_id out ∈ lall ∧
    length lall = S (length (announcements_collection db)) ∧
    (pop_id out ∈ lactive ↔ is_active = true).
Proof.
  intros Hrun.
  destruct (create_cases env title message tu is_active db)
    as [[e He]|(u & it & teacher & dn & -> & Hu & Hfirst & Hdn & Hfresh)];
    [congruence|].
  rewrite (create_persists _ _ _ _ _ _ _ _ _ Hu Hfirst Hdn Hfresh) in Hrun.
  injection Hrun as <- <-.
  set (stored := persisted_announcement env title message dn is_active).
  rewrite pop_id_insert_id.
  eexists _, _. split; [apply get_announcements_run|].
  split; [apply get_announcements_run|]. simpl. split_and!.
  - apply list_elem_of_fmap_2, sorted_elem_of, elem_of_app. right.
    apply list_elem_of_here.
  - rewrite length_fmap, sort_desc_perm, length_app. simpl. lia.
  - rewrite list_elem_of_fmap. split.
    + intros (d & Heq & Hd). apply sorted_elem_of in Hd.
      apply list_elem_of_filter in Hd as [Hactive _].
      unfold is_active_true in Hactive.
      rewrite <- (pop_id_other d "is_active"), <- Heq, pop_id_other
        in Hactive by done.
      subst stored. destruct is_active; [done|].
      by vm_compute in Hactive.
    + intros ->. exists stored. split; [done|].
      apply sorted_elem_of, list_elem_of_filter. split; [done|].
      apply elem_of_app. right. apply list_elem_of_here.
Qed.

(** X10.  Newest first, from the creator's side: when every stored
    [created_at] sorts strictly before the clock reading, the record a
    successful create returns is the first of the next full listing. *)
Theorem latest_created_is_first env title message tu is_active db out db' :
  clock_ahead env db →
  create_announcement env title message tu is_active db = (Return out, db') →
  ∃ rest, get_announcements None db' = (Return (pop_id out :: rest), db').
Proof.
  intros Hclock Hrun.
  destruct (create_cases env title message tu is_active db)
    as [[e He]|(u & it & teacher & dn & -> & Hu & Hfirst & Hdn & Hfresh)];
    [congruence|].
  rewrite (create_persists _ _ _ _ _ _ _ _ _ Hu Hfirst Hdn Hfresh) in Hrun.
  injection Hrun as <- <-.
  set (stored := persisted_announcement env title message dn is_active).
  rewrite pop_id_insert_id, get_announcements_run. simpl.
  pose proof (sort_desc_sorted "created_at"
                (announcements_collection db ++ [stored])) as Hsorted.
  assert (Hstored : stored ∈ Mongo.sort_desc "created_at"
                      (announcements_collection db ++ [stored])).
  { apply sorted_elem_of, elem_of_app. right. apply list_elem_of_here. }
  destruct (Mongo.sort_desc "created_at"
              (announcements_collection db ++ [stored]))
    as [|s rest] eqn:Hsort; [by apply elem_of_nil in Hstored|].
  assert (Hs : s ∈ announcements_collection db ++ [stored]).
  { apply (sorted_elem_of "created_at"). rewrite Hsort.
    apply list_elem_of_here. }
  exists (pop_id <$> rest). simpl. do 3 f_equal.
  apply elem_of_app in Hs as [Hold|Hnew];
    [|apply list_elem_of_singleton in Hnew; by rewrite Hnew].
  apply elem_of_cons in Hstored as [Heq|Hrest]; [by rewrite Heq|].
  apply StronglySorted_inv in Hsorted as [_ Hhead].
  exfalso. apply (Hclock s Hold).
  by apply (proj1 (Forall_forall _ _) Hhead stored Hrest).
Qed.

End composition.

(** * Which exception, and when *)

Section exceptions.

Implicit Types (db : database) (env : environment) (d : document).

Lemma unauthorized_split tu db :
  unauthorized tu db → no_username tu ∨ unknown_username tu db.
Proof.
  destruct tu as [u|]; [|by left; left]. simpl.
  destruct (decide (u = "")) as [->|Hu]; [by left; right|].
  intros [->|Hnone]; [done|]. right. by exists u.
Qed.

Lemma create_no_username env title message tu is_active db :
  no_username tu →
  create_announcement env title message tu is_active db
  = (Raise (HTTPException 401
              "Authentication required to post announcements"), db).
Proof. by intros [->| ->]. Qed.

Lemma update_no_username id tu is_active title message db :
  no_username tu →
  update_announcement id tu is_active title message db
  = (Raise (HTTPException 401 "Authentication required"), db).
Proof. by intros [->| ->]. Qed.

Lemma delete_no_username id tu db :
  no_username tu →
  delete_announcement id tu db
  = (Raise (HTTPException 401 "Authentication required"), db).
Proof. by intros [->| ->]. Qed.

Ltac turn_away H :=
  destruct H as (u & -> & Hu & Hnone); unfold_endpoint;
  rewrite (decide_False (P := u = "")) by done;
  unfold bind, teachers_find_one; simpl;
  by rewrite (find_one_None _ _ Hnone).

Lemma create_unknown_username env title message tu is_active db :
  unknown_username tu db →
  create_announcement env title message tu is_active db
  = (Raise (HTTPException 401 "Invalid teacher credentials"), db).
Proof. intros H. turn_away H. Qed.

Lemma update_unknown_username id tu is_active title message db :
  unknown_username tu db →
  update_announcement id tu is_active title message db
  = (Raise (HTTPException 401 "Invalid teacher credentials"), db).
Proof. intros H. turn_away H. Qed.

Lemma delete_unknown_username id tu db :
  unknown_username tu db →
  delete_announcement id tu db
  = (Raise (HTTPException 401 "Invalid teacher credentials"), db).
Proof. intros H. turn_away H. Qed.

(** X11.  The detail of a 401 tells the cause: an absent or empty username
    is answered with "Authentication required" (create adds "to post
    announcements"), a username that no teacher carries with "Invalid
    teacher credentials"; in both cases on all three writing endpoints and
    with the store untouched. *)
Theorem credential_errors_by_cause env id tu title message is_active
    is_active' title' message' db :
  (no_username tu →
   create_announcement env title message tu is_active db
   = (Raise (HTTPException 401
               "Authentication required to post announcements"), db) ∧
   update_announcement id tu is_active' title' message' db
   = (Raise (HTTPException 401 "Authentication required"), db) ∧
   delete_announcement id tu db
   = (Raise (HTTPException 401 "Authentication required"), db)) ∧
  (unknown_username tu db →
   create_announcement env title message tu is_active db
   = (Raise (HTTPException 401 "Invalid teacher credentials"), db) ∧
   update_announcement id tu is_active' title' message' db
   = (Raise (HTTPException 401 "Invalid teacher credentials"), db) ∧
   delete_announcement id tu db
   = (Raise (HTTPException 401 "Invalid teacher credentials"), db)).
Proof.
  split; intros H; split_and!;
    auto using create_no_username, update_no_username, delete_no_username,
      create_unknown_username, update_unknown_username,
      delete_unknown_username.
Qed.

(** X12.  What the endpoints can raise.  A listing never raises.  An update
    raises nothing but its two 401s, the 400 and the 404 (in particular the
    re-read of the updated record never comes back empty); a delete nothing
    but its two 401s and the 404. *)
Theorem raised_exceptions_enumerated active_only id tu is_active title
    message db e db' :
  get_announcements active_only db ≠ (Raise e, db') ∧
  (update_announcement id tu is_active title message db = (Raise e, db') →
   e ∈ [HTTPException 401 "Authentication required";
        HTTPException 401 "Invalid teacher credentials";
        HTTPException 400 "No fields to update";
        HTTPException 404 "Announcement not found"]) ∧
  (delete_announcement id tu db = (Raise e, db') →
   e ∈ [HTTPException 401 "Authentication required";
        HTTPException 401 "Invalid teacher credentials";
        HTTPException 404 "Announcement not found"]).
Proof.
  split_and!.
  - by rewrite get_announcements_run.
  - intros Hrun. destruct (credential_cases tu db) as [Hun|Hvalid].
    { apply unauthorized_split in Hun as [Hno|Hunknown].
      - rewrite update_no_username in Hrun by done.
        injection Hrun as <- _. set_solver.
      - rewrite update_unknown_username in Hrun by done.
        injection Hrun as <- _. set_solver. }
    destruct (decide (build_update_doc is_active title message = ∅))
      as [Hempty|Hupd].
    { apply build_update_doc_empty in Hempty as (-> & -> & ->).
      rewrite update_no_fields in Hrun by done.
      injection Hrun as <- _. set_solver. }
    destruct (id_cases id db) as [Hunknown|(i & d & Hfirst)].
    + rewrite update_not_found in Hrun by done.
      injection Hrun as <- _. set_solver.
    + by rewrite (update_found _ _ _ _ _ _ _ _ Hvalid Hupd Hfirst) in Hrun.
  - intros Hrun. destruct (credential_cases tu db) as [Hun|Hvalid].
    { apply unauthorized_split in Hun as [Hno|Hunknown].
      - rewrite delete_no_username in Hrun by done.
        injection Hrun as <- _. set_solver.
      - rewrite delete_unknown_username in Hrun by done.
        injection Hrun as <- _. set_solver. }
    destruct (id_cases id db) as [Hunknown|(i & d & Hfirst)].
    + rewrite delete_not_found in Hrun by done.
      injection Hrun as <- _. set_solver.
    + by rewrite (delete_found _ _ _ _ _ Hvalid Hfirst) in Hrun.
Qed.

(** X13.  A create by a teacher whose record has no [display_name] raises
    [KeyError] on that field, not an HTTP error, and stores nothing. *)
Theorem create_without_display_name env title message u is_active db
    it teacher :
  u ≠ "" →
  first_at (λ t, t !! "_id" = Some (VStr u)) (teachers_collection db)
           it teacher →
  teacher !! "display_name" = None →
  create_announcement env title message (Some u) is_active db
  = (Raise (KeyError "display_name"), db).
Proof.
  intros Hu Hfirst Hdn.
  unfold create_announcement. rewrite decide_False by done.
  unfold bind at 1; unfold teachers_find_one, Mongo.find_one; simpl.
  rewrite (proj2 (list_find_id _ _ _ _) Hfirst); simpl.
  rewrite decide_False; last first.
  { intros ->. destruct Hfirst as (_ & Hid & _).
    by rewrite lookup_empty in Hid. }
  by rewrite Hdn.
Qed.

(** X14.  Switching an announcement off hides it from the active-only
    listing and from nothing else: after a successful update with
    [is_active = False], ids being unique, the full listing contains the
    returned record, and every record of the active-only listing is the
    payload of an announcement stored before, with a different id. *)
Theorem deactivated_is_hidden id tu title message db out db' :
  unique_ids (announcements_collection db) →
  update_announcement id tu (Some false) title message db
  = (Return out, db') →
  ∃ lall lactive,
    get_announcements None db' = (Return lall, db') ∧
    get_announcements (Some true) db' = (Return lactive, db') ∧
    out ∈ lall ∧
    ∀ r, r ∈ lactive →
         ∃ d, d ∈ announcements_collection db ∧ ¬ has_id id d ∧
              is_active_true d ∧ r = pop_id d.
Proof.
  intros Huniq Hrun.
  destruct (update_cases id tu (Some false) title message db)
    as [[e He]|(Hvalid & Hupd & i & d & Hfirst)]; [congruence|].
  rewrite (update_found _ _ _ _ _ _ _ _ Hvalid Hupd Hfirst) in Hrun.
  injection Hrun as <- <-.
  set (d' := build_update_doc (Some false) title message ∪ d).
  eexists _, _. split; [apply get_announcements_run|].
  split; [apply get_announcements_run|]. simpl. split.
  - apply list_elem_of_fmap_2, sorted_elem_of, list_elem_of_insert.
    destruct Hfirst as (Hi & _). by eapply lookup_lt_Some.
  - intros r Hr. apply list_elem_of_fmap in Hr as (x & -> & Hx).
    apply sorted_elem_of, list_elem_of_filter in Hx as [Hactive Hx].
    apply list_elem_of_lookup_1 in Hx as [j Hj].
    destruct (decide (j = i)) as [->|Hne].
    { destruct Hfirst as (Hi & _).
      rewrite list_lookup_insert_eq in Hj by by eapply lookup_lt_Some.
      injection Hj as <-. unfold is_active_true in Hactive. subst d'.
      by rewrite set_is_active in Hactive. }
    rewrite list_lookup_insert_ne in Hj by done.
    exists x. split_and!; [by eapply list_elem_of_lookup_2| |done|done].
    intros Hid. apply Hne.
    by apply (unique_ids_first_only (announcements_collection db)
                (VStr id) i d j x).
Qed.

(** X15.  The identifier a create returns does not address the record it
    created: the record is stored under an [ObjectId], the returned [_id] is
    that identifier's string form, and update and delete look the path
    parameter up as a string.  Unless some announcement already has that
    string as its [_id], a delete with the returned identifier raises 404,
    and so does an update that supplies a field. *)
Theorem returned_id_is_not_found env title message tu is_active db out db' :
  create_announcement env title message tu is_active db = (Return out, db') →
  ∃ id,
    out !! "_id" = Some (VStr id) ∧
    (unknown_id id db →
     delete_announcement id tu db'
     = (Raise (HTTPException 404 "Announcement not found"), db') ∧
     ∀ is_active' title' message',
       build_update_doc is_active' title' message' ≠ ∅ →
       update_announcement id tu is_active' title' message' db'
       = (Raise (HTTPException 404 "Announcement not found"), db')).
Proof.
  intros Hrun.
  destruct (create_cases env title message tu is_active db)
    as [[e He]|(u & it & teacher & dn & -> & Hu & Hfirst & Hdn & Hfresh)];
    [congruence|].
  rewrite (create_persists _ _ _ _ _ _ _ _ _ Hu Hfirst Hdn Hfresh) in Hrun.
  injection Hrun as <- <-.
  exists (str (VOid (new_object_id env))).
  split; [by rewrite lookup_insert_eq|]. intros Hunknown.
  set (db' := Database _ _).
  assert (Hvalid : valid_teacher (Some u) db').
  { exists u, teacher. split_and!; [done|done| |by destruct Hfirst as (_&?&_)].
    by eapply first_at_elem_of. }
  assert (Hgone : unknown_id (str (VOid (new_object_id env))) db').
  { intros d Hd. simpl in Hd. apply elem_of_app in Hd as [Hd|Hd].
    - by apply Hunknown.
    - apply list_elem_of_singleton in Hd as ->. done. }
  split.
  - by apply delete_not_found.
  - intros is_active' title' message' Hupd. by apply update_not_found.
Qed.

(** X16.  The active-only listing is part of the full listing, and every
    record in it is active. *)
Theorem active_listing_within_full db :
  ∃ lactive lall,
    get_announcements (Some true) db = (Return lactive, db) ∧
    get_announcements (Some false) db = (Return lall, db) ∧
    lactive ⊆+ lall ∧
    ∀ r, r ∈ lactive → r !! "is_active" = Some (VBool true).
Proof.
  eexists _, _. split; [apply get_announcements_run|].
  split; [apply get_announcements_run|]. simpl. split.
  - rewrite !sort_desc_perm. apply sublist_submseteq, fmap_sublist.
    apply sublist_filter.
  - intros r Hr. apply list_elem_of_fmap in Hr as (d & -> & Hd).
    apply sorted_elem_of, list_elem_of_filter in Hd as [Hactive _].
    by rewrite pop_id_other.
Qed.

End exceptions.

(** * Sequences of requests *)

Section sequences.

Implicit Types (db : database) (env : environment) (d : document).

Lemma object_ids_preserved env r db :
  Forall has_object_id (announcements_collection db) →
  Forall has_object_id (announcements_collection (router env r db).2).
Proof.
  intros Hall. destruct (router_store env r db) as [->|Hw]; [done|].
  destruct Hw as [| | ? ? ? ? ? ? i d _ _ Hfirst|]; simpl.
  - done.
  - apply Forall_app. split; [done|]. apply Forall_singleton.
    by exists (new_object_id env).
  - apply Forall_insert; [done|]. unfold has_object_id.
    rewrite set_other by done.
    eapply (Forall_forall has_object_id); [done|].
    by eapply first_at_elem_of.
  - by apply Forall_delete.
Qed.

Lemma serve_object_ids reqs db :
  Forall has_object_id (announcements_collection db) →
  Forall has_object_id (announcements_collection (serve reqs db)).
Proof.
  revert db. induction reqs as [|[env r] reqs IH]; intros db Hall; [done|].
  simpl. by apply IH, object_ids_preserved.
Qed.

Lemma object_ids_unknown id db :
  Forall has_object_id (announcements_collection db) → unknown_id id db.
Proof.
  intros Hall d Hd Hid.
  destruct (proj1 (Forall_forall _ _) Hall d Hd) as [n Hn].
  unfold has_id in Hid. congruence.
Qed.

(** X17.  Only a valid teacher changes the announcements: if a request
    leaves the announcements different from what they were, the credential
    it presented names an existing teacher. *)
Theorem only_teachers_write env r db :
  announcements_collection (router env r db).2
  ≠ announcements_collection db →
  valid_teacher (request_teacher r) db.
Proof.
  intros Hchanged. destruct (router_store env r db) as [Heq|Hw].
  { by rewrite Heq in Hchanged. }
  destruct Hw as [| ? ? u ? ? it teacher ? Hu Hfirst _ _| |]; simpl; try done.
  exists u, teacher. split_and!; [done|done| |by destruct Hfirst as (_&?&_)].
  by eapply first_at_elem_of.
Qed.

(** X18.  Records created through the endpoints cannot be updated or
    deleted through them.  Starting from an empty announcements collection,
    after any sequence of requests every stored [_id] is an [ObjectId],
    which the string path parameter never equals: no update and no delete
    returns, and a valid teacher gets 404 from every delete and from every
    update that supplies a field. *)
Theorem created_records_not_addressable reqs teachers id tu is_active title
    message :
  let db := serve reqs (Database [] teachers) in
  (∀ out db',
     update_announcement id tu is_active title message db
     ≠ (Return out, db')) ∧
  (∀ out db', delete_announcement id tu db ≠ (Return out, db')) ∧
  (valid_teacher tu db →
   delete_announcement id tu db
   = (Raise (HTTPException 404 "Announcement not found"), db) ∧
   (build_update_doc is_active title message ≠ ∅ →
    update_announcement id tu is_active title message db
    = (Raise (HTTPException 404 "Announcement not found"), db))).
Proof.
  intros db.
  assert (Hunknown : unknown_id id db).
  { apply object_ids_unknown, serve_object_ids. constructor. }
  split_and!.
  - intros out db' Hrun.
    destruct (update_cases id tu is_active title message db)
      as [[e He]|(_ & _ & i & d & Hfirst)]; [congruence|].
    by eapply unknown_id_not_first.
  - intros out db' Hrun.
    destruct (delete_cases id tu db)
      as [[e He]|(_ & i & d & Hfirst)]; [congruence|].
    by eapply unknown_id_not_first.
  - intros Hvalid. split; [by apply delete_not_found|].
    intros Hupd. by apply update_not_found.
Qed.

End sequences.

(** * More concrete runs *)

Section more_runs.

Lemma delete_exam_notice :
  delete_announcement "a1" (Some "t_jones") school
  = (Return {[ "message" := VStr "Announcement deleted successfully" ]},
     Database [old_notice] [ms_jones]).
Proof. by vm_compute. Defined.

Lemma delete_a9 :
  router monday (DELETE "a9" (Some "t_jones")) school
  = (Raise (HTTPException 404 "Announcement not found"), school).
Proof. by vm_compute. Defined.

Lemma school_well_formed :
  Forall well_formed_announcement (announcements_collection school).
Proof.
  constructor; [|constructor; [|constructor]];
    unfold well_formed_announcement; split_and!; by eauto.
Defined.

Lemma school_clock_ahead : clock_ahead monday school.
Proof.
  intros d Hd Hle. unfold Mongo.value_le in Hle.
  apply elem_of_cons in Hd as [->|Hd]; [by vm_compute in Hle|].
  apply list_elem_of_singleton in Hd as ->. by vm_compute in Hle.
Defined.

Lemma mallory_is_unknown : unknown_username (Some "mallory") school.
Proof.
  exists "mallory". split_and!; [done|done|].
  intros t Ht. apply list_elem_of_singleton in Ht as ->. done.
Defined.

Lemma smith_is_first :
  first_at (λ t : document, t !! "_id" = Some (VStr "t_smith"))
           (teachers_collection nameless_school) 0
           {[ "_id" := VStr "t_smith" ]}.
Proof. split_and!; [done|done|]. intros j y _ Hlt. lia. Defined.

Lemma ff_is_unknown : unknown_id "0000000000000000000000ff" school.
Proof.
  intros d Hd. unfold has_id.
  apply elem_of_cons in Hd as [->|Hd]; [done|].
  apply list_elem_of_singleton in Hd as ->. done.
Defined.

Lemma delete_changes_school :
  announcements_collection
    (router monday (DELETE "a1" (Some "t_jones")) school).2
  ≠ announcements_collection school.
Proof. intros Heq. apply (f_equal length) in Heq. by vm_compute in Heq. Defined.

Lemma raise_leaves_store_witness :
  router monday (DELETE "a9" (Some "t_jones")) school
  = (Raise (HTTPException 404 "Announcement not found"), school) ∧
  school = school.
Proof.
  split; [exact delete_a9|].
  exact (raise_leaves_store monday (DELETE "a9" (Some "t_jones")) school
           _ school delete_a9).
Defined.

Lemma unique_ids_preserved_witness :
  let r := POST "Sports day" "Bring trainers" (Some "t_jones") true in
  unique_ids (announcements_collection school) ∧
  unique_ids (announcements_collection (router monday r school).2).
Proof.
  intros r. split; [exact school_unique_ids|].
  exact (unique_ids_preserved monday r school school_unique_ids).
Defined.

Lemma well_formed_preserved_witness :
  let r := PATCH "a1" (Some "t_jones") None (Some "Exam moved") None in
  Forall well_formed_announcement (announcements_collection school) ∧
  Forall well_formed_announcement
    (announcements_collection (router monday r school).2).
Proof.
  intros r. split; [exact school_well_formed|].
  exact (well_formed_preserved monday r school school_well_formed).
Defined.

Lemma origin_never_rewritten_witness :
  let r := PATCH "a1" (Some "t_jones") (Some false) None None in
  exam_notice_off ∈ announcements_collection (router monday r school).2 ∧
  ((∃ d, d ∈ announcements_collection school ∧
         same_origin d exam_notice_off) ∨
   (∃ title message tu is_active,
      r = POST title message tu is_active ∧
      exam_notice_off !! "_id" = Some (VOid (new_object_id monday)) ∧
      exam_notice_off !! "created_at"
      = Some (VStr (utcnow_isoformat monday)))).
Proof.
  intros r.
  assert (Hin : exam_notice_off
                ∈ announcements_collection (router monday r school).2).
  { replace (announcements_collection (router monday r school).2)
      with [old_notice; exam_notice_off] by by vm_compute.
    apply list_elem_of_further, list_elem_of_here. }
  split; [exact Hin|].
  exact (origin_never_rewritten monday r school exam_notice_off Hin).
Defined.

Lemma update_idempotent_witness :
  update_announcement "a1" (Some "t_jones") (Some false) None None school
  = (Return (pop_id exam_notice_off),
     Database [old_notice; exam_notice_off] [ms_jones]) ∧
  update_announcement "a1" (Some "t_jones") (Some false) None None
    (Database [old_notice; exam_notice_off] [ms_jones])
  = (Return (pop_id exam_notice_off),
     Database [old_notice; exam_notice_off] [ms_jones]).
Proof.
  split; [exact deactivate_exam_notice|].
  exact (update_idempotent "a1" (Some "t_jones") (Some false) None None
           school _ _ deactivate_exam_notice).
Defined.

Lemma deleted_is_gone_witness :
  unique_ids (announcements_collection school) ∧
  delete_announcement "a1" (Some "t_jones") school
  = (Return {[ "message" := VStr "Announcement deleted successfully" ]},
     Database [old_notice] [ms_jones]) ∧
  delete_announcement "a1" (Some "t_jones")
    (Database [old_notice] [ms_jones])
  = (Raise (HTTPException 404 "Announcement not found"),
     Database [old_notice] [ms_jones]).
Proof.
  split_and!; [exact school_unique_ids|exact delete_exam_notice|].
  exact (proj1 (deleted_is_gone "a1" (Some "t_jones") school _ _
                  school_unique_ids delete_exam_notice)).
Defined.

Lemma created_is_listed_witness :
  let out := <["_id" := VStr "0000000000000000000000ff"]> sports_day in
  let db' := Database [old_notice; exam_notice; sports_day] [ms_jones] in
  create_announcement monday "Sports day" "Bring trainers" (Some "t_jones")
    true school = (Return out, db') ∧
  ∃ lall lactive,
    get_announcements None db' = (Return lall, db') ∧
    get_announcements (Some true) db' = (Return lactive, db') ∧
    pop_id out ∈ lall ∧
    length lall = 3 ∧
    (pop_id out ∈ lactive ↔ true = true).
Proof.
  intros out db'. split; [exact create_sports_day|].
  exact (created_is_listed monday "Sports day" "Bring trainers"
           (Some "t_jones") true school out db' create_sports_day).
Defined.

Lemma latest_created_is_first_witness :
  let out := <["_id" := VStr "0000000000000000000000ff"]> sports_day in
  let db' := Database [old_notice; exam_notice; sports_day] [ms_jones] in
  clock_ahead monday school ∧
  create_announcement monday "Sports day" "Bring trainers" (Some "t_jones")
    true school = (Return out, db') ∧
  ∃ rest, get_announcements None db' = (Return (pop_id out :: rest), db').
Proof.
  intros out db'. split_and!; [exact school_clock_ahead
                              |exact create_sports_day|].
  exact (latest_created_is_first monday "Sports day" "Bring trainers"
           (Some "t_jones") true school out db' school_clock_ahead
           create_sports_day).
Defined.

Lemma credential_errors_by_cause_witness :
  update_announcement "a1" None (Some false) None None school
  = (Raise (HTTPException 401 "Authentication required"), school) ∧
  update_announcement "a1" (Some "mallory") (Some false) None None school
  = (Raise (HTTPException 401 "Invalid teacher credentials"), school).
Proof.
  split.
  - destruct (credential_errors_by_cause monday "a1" None "Party" "Tonight"
                true (Some false) None None school) as [Hno _].
    exact (proj1 (proj2 (Hno (or_introl eq_refl)))).
  - destruct (credential_errors_by_cause monday "a1" (Some "mallory") "Party"
                "Tonight" true (Some false) None None school) as [_ Hunknown].
    exact (proj1 (proj2 (Hunknown mallory_is_unknown))).
Defined.

Lemma raised_exceptions_enumerated_witness :
  HTTPException 404 "Announcement not found"
  ∈ [HTTPException 401 "Authentication required";
     HTTPException 401 "Invalid teacher credentials";
     HTTPException 404 "Announcement not found"].
Proof.
  destruct (raised_exceptions_enumerated None "a9" (Some "t_jones") None
              None None school (HTTPException 404 "Announcement not found")
              school) as (_ & _ & Hdelete).
  apply Hdelete. by vm_compute.
Defined.

Lemma create_without_display_name_witness :
  "t_smith" ≠ "" ∧
  first_at (λ t : document, t !! "_id" = Some (VStr "t_smith"))
           (teachers_collection nameless_school) 0
           {[ "_id" := VStr "t_smith" ]} ∧
  ({[ "_id" := VStr "t_smith" ]} : document) !! "display_name" = None ∧
  create_announcement monday "Exam" "Friday" (Some "t_smith") true
    nameless_school
  = (Raise (KeyError "display_name"), nameless_school).
Proof.
  assert (Hu : "t_smith" ≠ "") by done.
  split_and!; [exact Hu|exact smith_is_first|done|].
  exact (create_without_display_name monday "Exam" "Friday" "t_smith" true
           nameless_school 0 _ Hu smith_is_first eq_refl).
Defined.

Lemma deactivated_is_hidden_witness :
  let db' := Database [old_notice; exam_notice_off] [ms_jones] in
  unique_ids (announcements_collection school) ∧
  update_announcement "a1" (Some "t_jones") (Some false) None None school
  = (Return (pop_id exam_notice_off), db') ∧
  ∃ lall lactive,
    get_announcements None db' = (Return lall, db') ∧
    get_announcements (Some true) db' = (Return lactive, db') ∧
    pop_id exam_notice_off ∈ lall ∧
    ∀ r, r ∈ lactive →
         ∃ d, d ∈ announcements_collection school ∧ ¬ has_id "a1" d ∧
              is_active_true d ∧ r = pop_id d.
Proof.
  intros db'. split_and!; [exact school_unique_ids
                          |exact deactivate_exam_notice|].
  exact (deactivated_is_hidden "a1" (Some "t_jones") None None school _ db'
           school_unique_ids deactivate_exam_notice).
Defined.

Lemma returned_id_is_not_found_witness :
  let db' := Database [old_notice; exam_notice; sports_day] [ms_jones] in
  create_announcement monday "Sports day" "Bring trainers" (Some "t_jones")
    true school
  = (Return (<["_id" := VStr "0000000000000000000000ff"]> sports_day), db') ∧
  delete_announcement "0000000000000000000000ff" (Some "t_jones") db'
  = (Raise (HTTPException 404 "Announcement not found"), db').
Proof.
  intros db'. split; [exact create_sports_day|].
  destruct (returned_id_is_not_found monday "Sports day" "Bring trainers"
              (Some "t_jones") true school _ db' create_sports_day)
    as (id & Hid & Hgone).
  assert (id = "0000000000000000000000ff") as ->.
  { rewrite lookup_insert_eq in Hid. by injection Hid as <-. }
  exact (proj1 (Hgone ff_is_unknown)).
Defined.

Lemma only_teachers_write_witness :
  announcements_collection
    (router monday (DELETE "a1" (Some "t_jones")) school).2
  ≠ announcements_collection school ∧
  valid_teacher (Some "t_jones") school.
Proof.
  split; [exact delete_changes_school|].
  exact (only_teachers_write monday (DELETE "a1" (Some "t_jones")) school
           delete_changes_school).
Defined.

Lemma created_records_not_addressable_witness :
  let db := serve [(monday, POST "Sports day" "Bring trainers"
                              (Some "t_jones") true)]
                  (Database [] [ms_jones]) in
  announcements_collection db = [sports_day] ∧
  delete_announcement "0000000000000000000000ff" (Some "t_jones") db
  = (Raise (HTTPException 404 "Announcement not found"), db).
Proof.
  intros db. split; [by vm_compute|].
  assert (Hvalid : valid_teacher (Some "t_jones") db).
  { exists "t_jones", ms_jones. split_and!; [done|done| |done].
    apply list_elem_of_here. }
  exact (proj1 (proj2 (proj2 (created_records_not_addressable
                                [(monday, POST "Sports day" "Bring trainers"
                                            (Some "t_jones") true)]
                                [ms_jones] "0000000000000000000000ff"
                                (Some "t_jones") None None None)) Hvalid)).
Defined.

End more_runs.
